(** * VEIL: audio-to-structure derivation and reactive deformation

    A shallow embedding of the deterministic structure generator
    ([src/MapDNA.js], [src/modes/NeuralMap.js]) and of the per-frame
    feature extraction and deformation code ([src/modes/NeuralGalaxy.js]).

    Part I (modules [JS], [Prng], [MapDNA], [NeuralMap], [Galaxy]) models
    JavaScript numbers as IEEE-754 binary64 values (Rocq's primitive
    floats), so that NaN, signed zeros and rounding are those of the
    program; 32-bit integer arithmetic is modelled on [Z] with its
    wrap-around written out.  [Math.sin], [Math.cos] and the colour
    conversion of the rendering library are implementation-defined and are
    taken as section variables.

    Part II (modules [AudioFeatures], [Zones], [ArmLane]) models the
    per-frame code over exact arithmetic (rationals, and reals where
    [Math.exp] and [Math.PI] occur): the properties proved there are those
    of the formulas, without binary64 rounding.

    Part III holds the proofs, one module per group of properties. *)

From Stdlib Require Import ZArith List Bool Lia String Ascii DecimalString Floats.
From Stdlib Require Import QArith Qminmax Qround Reals Psatz.
Import ListNotations.

Close Scope Q_scope.

Set Warnings "-inexact-float".

(* ================================================================== *)
(** * Part I: binary64 model of the structure generator               *)
(* ================================================================== *)

(** ** JavaScript numbers *)
Module JS.

(** [ToInt32]: the result of [x | 0] on an integral value. *)
Definition toInt32 (z : Z) : Z :=
  let m := (z mod 4294967296)%Z in
  if (m <? 2147483648)%Z then m else (m - 4294967296)%Z.

(** [ToUint32]: the result of [x >>> 0]. *)
Definition toUint32 (z : Z) : Z := (z mod 4294967296)%Z.

(** [Math.imul(a, b)]. *)
Definition imul (a b : Z) : Z := toInt32 (a * b).

(** The Number value of a mathematical integer (round to nearest even;
    exact below 2^53). *)
Definition ofZ (z : Z) : float := SF2Prim (binary_normalize prec emax z 0 false).

Definition ofNat (n : nat) : float := ofZ (Z.of_nat n).

(** [s.charCodeAt(i)] for every [i], in order. *)
Fixpoint charCodes (s : string) : list Z :=
  match s with
  | EmptyString => []
  | String c s' => Z.of_nat (nat_of_ascii c) :: charCodes s'
  end.

(** [a || b] on strings: the empty string is falsy. *)
Definition orDefault (a b : string) : string :=
  match a with EmptyString => b | _ => a end.

(** Integer-valued Numbers, as [Math.floor] produces them. *)
Inductive integral : Type :=
| JInt (z : Z)
| JPosInf
| JNegInf
| JNaN.

Definition Math_floor (x : float) : integral :=
  match Prim2SF x with
  | S754_nan => JNaN
  | S754_infinity s => if s then JNegInf else JPosInf
  | S754_zero _ => JInt 0
  | S754_finite s m e =>
      let v := if s then Zneg m else Zpos m in
      JInt (if (0 <=? e)%Z then v * 2 ^ e else v / 2 ^ (- e))%Z
  end.

(** [Math.floor] as a Number. *)
Definition Math_floorF (x : float) : float :=
  match Math_floor x with
  | JInt z => match z with Z0 => (if get_sign x then x else zero) | _ => ofZ z end
  | _ => x
  end.

Definition Math_min_int (a b : integral) : integral :=
  match a, b with
  | JNaN, _ | _, JNaN => JNaN
  | JNegInf, _ | _, JNegInf => JNegInf
  | JPosInf, y => y
  | x, JPosInf => x
  | JInt x, JInt y => JInt (Z.min x y)
  end.

Definition Math_max_int (a b : integral) : integral :=
  match a, b with
  | JNaN, _ | _, JNaN => JNaN
  | JPosInf, _ | _, JPosInf => JPosInf
  | JNegInf, y => y
  | x, JNegInf => x
  | JInt x, JInt y => JInt (Z.max x y)
  end.

(** [Math.max] and [Math.min] on Numbers. *)
Definition Math_max (a b : float) : float :=
  if is_nan a || is_nan b then nan
  else if (a <? b)%float then b
  else if (b <? a)%float then a
  else if get_sign a then b else a.

Definition Math_min (a b : float) : float :=
  if is_nan a || is_nan b then nan
  else if (a <? b)%float then a
  else if (b <? a)%float then b
  else if get_sign a then a else b.

(** [THREE.MathUtils.clamp(value, min, max)]. *)
Definition clamp (value lo hi : float) : float := Math_max lo (Math_min hi value).

(** The remainder operator [x % y] on Numbers (exact, sign of the
    dividend). *)
Definition rem (x y : float) : float :=
  match Prim2SF x, Prim2SF y with
  | S754_nan, _ | _, S754_nan => nan
  | S754_infinity _, _ => nan
  | _, S754_zero _ => nan
  | S754_zero _, _ => x
  | _, S754_infinity _ => x
  | S754_finite sx mx ex, S754_finite _ my ey =>
      let e := Z.min ex ey in
      let X := (Zpos mx * 2 ^ (ex - e))%Z in
      let Y := (Zpos my * 2 ^ (ey - e))%Z in
      match (X mod Y)%Z with
      | Z0 => if sx then neg_zero else zero
      | r => SF2Prim (binary_normalize prec emax (if sx then - r else r)%Z e false)
      end
  end.

(** The value stored by a write into a [Float32Array]. *)
Definition Math_fround (x : float) : float :=
  match Prim2SF x with
  | S754_finite s m e => SF2Prim (binary_round 24 128 s m e)
  | _ => x
  end.

(** [subarray(start, end)] / [slice(start, end)] of a typed array, for
    non-negative integer bounds: both are clamped to the length and an
    inverted range is empty. *)
Definition subarray {A} (data : list A) (start end_ : nat) : list A :=
  firstn (Nat.min end_ (List.length data) - Nat.min start (List.length data))
         (skipn (Nat.min start (List.length data)) data).

End JS.

(** ** The seeded linear-congruential stream *)
Module Prng.

(** [seededRandom(seed)]: the closure it returns, represented by the
    value of its variable [h] after the seeding loop. *)
Definition seededRandom (seed : string) : Z :=
  fold_left (fun h c => JS.toInt32 (JS.imul 31 h + c)) (JS.charCodes seed) 0%Z.

Definition next_state (h : Z) : Z :=
  JS.toInt32 (JS.imul 1664525 h + 1013904223).

Definition output (h : Z) : float :=
  (JS.ofZ (JS.toUint32 h) / 4294967296)%float.

(** Computations that call [rand()]: the state is the closure's [h]. *)
Definition Rand (A : Type) : Type := Z -> A * Z.

Definition ret {A} (a : A) : Rand A := fun h => (a, h).

Definition bind {A B} (m : Rand A) (k : A -> Rand B) : Rand B :=
  fun h => let (a, h') := m h in k a h'.

Definition rand : Rand float :=
  fun h => let h' := next_state h in (output h', h').

(** Run a computation with [rand = seededRandom(seed)]. *)
Definition run {A} (seed : string) (m : Rand A) : A := fst (m (seededRandom seed)).

(** A [for] loop over the indices [l] with loop-carried value [acc]. *)
Fixpoint forM {I A} (l : list I) (body : I -> A -> Rand A) (acc : A) : Rand A :=
  match l with
  | [] => ret acc
  | i :: l' => bind (body i acc) (forM l' body)
  end.

(** A loop that fills position [i] of a fresh array with [body i]. *)
Fixpoint mapM {I A} (body : I -> Rand A) (l : list I) : Rand (list A) :=
  match l with
  | [] => ret []
  | i :: l' => bind (body i) (fun a => bind (mapM body l') (fun rest => ret (a :: rest)))
  end.

End Prng.

Notation "x <- m ;; k" := (Prng.bind m (fun x => k))
  (at level 61, m at next level, right associativity).

(** ** Data shared by the two generators *)

(** [THREE.Vector3], with the two methods the generators call. *)
Record Vector3 : Type := mkVector3 { vx : float; vy : float; vz : float }.

Definition distanceTo (a b : Vector3) : float :=
  let dx := (vx a - vx b)%float in
  let dy := (vy a - vy b)%float in
  let dz := (vz a - vz b)%float in
  PrimFloat.sqrt (dx * dx + dy * dy + dz * dz)%float.

Definition vlength (a : Vector3) : float :=
  PrimFloat.sqrt (vx a * vx a + vy a * vy a + vz a * vz a)%float.

(** A decoded audio buffer: [getChannelData(0)], the remaining channels,
    the sample rate and the duration in seconds. *)
Record AudioBuffer : Type := mkAudioBuffer {
  channel0 : list float;
  otherChannels : list (list float);
  sampleRate : float;
  duration : float
}.

(** A StructureNode, as [buildMapDataFromAudio] returns it and as
    [exportNetwork] exports it. *)
Record Node : Type := mkNode {
  id : nat;
  position : Vector3;
  freq : float;
  amp : float;
  hue : float;
  connections : list nat
}.

(** The outcome of a call that may throw. *)
Inductive completion (A : Type) : Type :=
| Normal (a : A)
| RangeError.
Arguments Normal {A} a.
Arguments RangeError {A}.

(** Replace element [i] of an array by [f] of it (no effect out of range). *)
Fixpoint update_nth {A} (i : nat) (f : A -> A) (l : list A) : list A :=
  match l, i with
  | [], _ => []
  | a :: l', O => f a :: l'
  | a :: l', S i' => a :: update_nth i' f l'
  end.

(** [nodeCount = Math.max(50, Math.min(200, Math.floor(duration * 10)))]. *)
Definition nodeCount (dur : float) : JS.integral :=
  JS.Math_max_int (JS.JInt 50)
    (JS.Math_min_int (JS.JInt 200) (JS.Math_floor (dur * 10)%float)).

(** [step = Math.max(1, Math.floor(data.length / nodeCount))]; the
    quotient of two array-sized integers is floored exactly. *)
Definition sliceStep (len n : nat) : nat := Nat.max 1 (len / n).

(** ** src/MapDNA.js *)
Module MapDNA.
Section Generator.

Variables Math_sin Math_cos : float -> float.

Local Open Scope float_scope.

Definition maxAbs (arr : list float) : float :=
  fold_left (fun m a => let v := PrimFloat.abs a in if m <? v then v else m) arr 0.

(** The loop of [extractDominantFrequency]: [prev] is [data[i - 1]]. *)
Fixpoint zeroCrossings (prev : float) (rest : list float) (count : nat) : nat :=
  match rest with
  | [] => count
  | cur :: rest' =>
      zeroCrossings cur rest'
        (if negb (Bool.eqb (0 <=? prev) (0 <=? cur)) then S count else count)
  end.

Definition extractDominantFrequency (data : list float) : float :=
  let zc := match data with [] => O | d0 :: rest => zeroCrossings d0 rest O end in
  JS.ofNat zc / JS.ofNat (List.length data).

(** The slice of node [i]:
    [data.subarray(i * step, Math.min(data.length, (i + 1) * step))]. *)
Definition nodeSlice (data : list float) (step i : nat) : list float :=
  JS.subarray data (i * step)%nat (Nat.min (List.length data) ((i + 1) * step))%nat.

(** One iteration of the node loop. *)
Definition makeNode (data : list float) (n step i : nat) : Prng.Rand Node :=
  let slice := nodeSlice data step i in
  let amp := maxAbs slice in
  let freq := extractDominantFrequency slice in
  r1 <- Prng.rand ;;
  let x := (JS.ofNat i / JS.ofNat n - 0.5) * 40 + (r1 - 0.5) * 10 in
  let y := (amp - 0.5) * 80 + Math_sin (freq * 0.1) * 20 in
  r2 <- Prng.rand ;;
  let z := (r2 - 0.5) * 30 + Math_cos (JS.ofNat i * 0.001) * 10 in
  let hue := JS.rem (JS.ofNat i / JS.ofNat n + amp) 1 in
  Prng.ret {| id := i; position := mkVector3 x y z;
              freq := freq; amp := amp; hue := hue; connections := [] |}.

Definition nodeLoop (data : list float) (n step : nat) : Prng.Rand (list Node) :=
  Prng.mapM (makeNode data n step) (seq 0 n).

Definition pushConnection (j : nat) (nd : Node) : Node :=
  {| id := id nd; position := position nd; freq := freq nd; amp := amp nd;
     hue := hue nd; connections := connections nd ++ [j] |}.

Definition origin : Vector3 := mkVector3 0 0 0.
Definition blankNode : Node :=
  {| id := O; position := origin; freq := 0; amp := 0; hue := 0; connections := [] |}.

(** The body of the inner connection loop for the pair [(i, j)]. *)
Definition connectPair (i j : nat) (nodes : list Node) : Prng.Rand (list Node) :=
  if Nat.eqb i j then Prng.ret nodes
  else
    let dist := distanceTo (position (nth i nodes blankNode))
                           (position (nth j nodes blankNode)) in
    if dist <? 8 then
      r <- Prng.rand ;;
      if r <? 0.7 then Prng.ret (update_nth i (pushConnection j) nodes)
      else Prng.ret nodes
    else Prng.ret nodes.

Definition connectionLoop (n : nat) (nodes : list Node) : Prng.Rand (list Node) :=
  Prng.forM (seq 0 n)
    (fun i nodes1 => Prng.forM (seq 0 n) (fun j nodes2 => connectPair i j nodes2) nodes1)
    nodes.

(** [buildMapDataFromAudio(audioBuffer, audioHash = 'seed')]; the
    call [new Array(nodeCount)] throws when [nodeCount] is NaN. *)
Definition buildMapDataFromAudio (audioBuffer : AudioBuffer) (audioHash : string)
  : completion (list Node) :=
  let data := channel0 audioBuffer in
  match nodeCount (duration audioBuffer) with
  | JS.JInt nc =>
      let n := Z.to_nat nc in
      let step := sliceStep (List.length data) n in
      Normal (Prng.run (JS.orDefault audioHash "seed")
                (nodes <- nodeLoop data n step ;; connectionLoop n nodes))
  | _ => RangeError
  end.

End Generator.

(** What the connection pass leaves untouched. *)
Definition features (nd : Node) : nat * Vector3 * float * float * float :=
  (id nd, position nd, freq nd, amp nd, hue nd).

(** The slices the node loop reads for a buffer of [n] nodes, in order. *)
Definition slices (data : list float) (n : nat) : list (list float) :=
  map (nodeSlice data (sliceStep (List.length data) n)) (seq 0 n).

End MapDNA.

(** ** src/modes/NeuralMap.js *)
Module NeuralMap.
Section Mode.

Variables Math_sin Math_cos : float -> float.

Local Open Scope float_scope.

(** [node.userData]. *)
Record UserData : Type := mkUserData {
  ud_id : nat;
  ud_amp : float;
  ud_freq : float;
  ud_hue : float;
  ud_connections : list nat;
  ud_baseY : float
}.

(** A node mesh: its position, the radius of its sphere geometry and
    its [userData] (materials belong to the renderer). *)
Record Mesh : Type := mkMesh {
  mesh_position : Vector3;
  mesh_radius : float;
  userData : UserData
}.

(** The fields of the mode instance that the generator reads or writes;
    a connection line is recorded by the ids of its two end nodes. *)
Record State : Type := mkState {
  audioHash : string;
  nodes : list Mesh;
  lines : list (nat * nat)
}.

(** The instance after [clearNetwork()], with [this.audioHash] set. *)
Definition cleared (hash : string) : State :=
  {| audioHash := hash; nodes := []; lines := [] |}.

(** [arr.reduce((m, v) => Math.max(m, Math.abs(v)), 0)]. *)
Definition maxAbs (arr : list float) : float :=
  fold_left (fun m v => JS.Math_max m (PrimFloat.abs v)) arr 0.

Definition extractDominantFrequency (data : list float) : float :=
  let zc := match data with
            | [] => O
            | d0 :: rest => MapDNA.zeroCrossings d0 rest O
            end in
  JS.ofNat zc / JS.ofNat (List.length data).

Definition makeMesh (data : list float) (n step i : nat) : Prng.Rand Mesh :=
  let slice := JS.subarray data (i * step)%nat ((i + 1) * step)%nat in
  let amp := maxAbs slice in
  let freq := extractDominantFrequency slice in
  r1 <- Prng.rand ;;
  let x := (JS.ofNat i / JS.ofNat n - 0.5) * 40 + (r1 - 0.5) * 10 in
  let y := (amp - 0.5) * 80 + Math_sin (freq * 0.1) * 20 in
  r2 <- Prng.rand ;;
  let z := (r2 - 0.5) * 30 + Math_cos (JS.ofNat i * 0.001) * 10 in
  let hue := JS.rem (JS.ofNat i / JS.ofNat n + amp) 1 in
  Prng.ret {| mesh_position := mkVector3 x y z;
              mesh_radius := 0.2 + amp * 0.3;
              userData := {| ud_id := i; ud_amp := amp; ud_freq := freq; ud_hue := hue;
                             ud_connections := []; ud_baseY := y |} |}.

Definition pushConnection (j : nat) (m : Mesh) : Mesh :=
  let u := userData m in
  {| mesh_position := mesh_position m;
     mesh_radius := mesh_radius m;
     userData := {| ud_id := ud_id u; ud_amp := ud_amp u; ud_freq := ud_freq u;
                    ud_hue := ud_hue u; ud_connections := ud_connections u ++ [j];
                    ud_baseY := ud_baseY u |} |}.

Definition blankMesh : Mesh :=
  {| mesh_position := MapDNA.origin; mesh_radius := 0;
     userData := {| ud_id := O; ud_amp := 0; ud_freq := 0; ud_hue := 0;
                    ud_connections := []; ud_baseY := 0 |} |}.

(** The body of the inner [forEach] for the pair [(i, j)]. *)
Definition connectPair (i j : nat) (st : list Mesh * list (nat * nat))
  : Prng.Rand (list Mesh * list (nat * nat)) :=
  let (ms, ls) := st in
  if Nat.eqb i j then Prng.ret st
  else
    let dist := distanceTo (mesh_position (nth i ms blankMesh))
                           (mesh_position (nth j ms blankMesh)) in
    if dist <? 8 then
      r <- Prng.rand ;;
      if r <? 0.7 then Prng.ret (update_nth i (pushConnection j) ms, ls ++ [(i, j)])
      else Prng.ret st
    else Prng.ret st.

(** The number of iterations of [for (let i = 0; i < nodeCount; i++)]
    ([nodeCount] is never infinite; the comparison with NaN is false). *)
Definition iterations (c : JS.integral) : nat :=
  match c with JS.JInt z => Z.to_nat z | _ => O end.

(** [buildNetFromAudio(buffer)]. *)
Definition buildNetFromAudio (this : State) (buffer : AudioBuffer) : State :=
  let data := channel0 buffer in
  let n := iterations (nodeCount (duration buffer)) in
  let step := sliceStep (List.length data) n in
  let '(ms, ls) :=
    Prng.run (JS.orDefault (audioHash this) "seed")
      (pushed <- Prng.mapM (makeMesh data n step) (seq 0 n) ;;
       let ms1 := nodes this ++ pushed in
       let k := List.length ms1 in
       Prng.forM (seq 0 k)
         (fun i st1 => Prng.forM (seq 0 k) (fun j st2 => connectPair i j st2) st1)
         (ms1, lines this)) in
  {| audioHash := audioHash this; nodes := ms; lines := ls |}.

(** [exportNetwork()]. *)
Definition exportMesh (m : Mesh) : Node :=
  {| id := ud_id (userData m);
     position := mesh_position m;
     freq := ud_freq (userData m);
     amp := ud_amp (userData m);
     hue := ud_hue (userData m);
     connections := ud_connections (userData m) |}.

Definition exportNetwork (this : State) : list Node := map exportMesh (nodes this).

End Mode.

(** The node list is the export of the mesh list of a loop state. *)
Definition exports (st : list Mesh * list (nat * nat)) (nodes : list Node) : Prop :=
  map exportMesh (fst st) = nodes.

End NeuralMap.

(** ** src/modes/NeuralGalaxy.js: structure builders and smoothing caches *)
Module Galaxy.
Section Mode.

Variables Math_sin Math_cos : float -> float.

(** [c.setHSL(h, s, l)] followed by reading [c.r], [c.g], [c.b]
    ([THREE.Color], part of the rendering library). *)
Variable setHSL : float -> float -> float -> float * float * float.

Local Open Scope float_scope.

(** [Math.PI]. *)
Definition Math_PI : float := 0x1.921fb54442d18p+1.

(** [cfg.arms.countMin] and [cfg.arms.countMax]. *)
Record ArmsCfg : Type := mkArmsCfg { countMin : Z; countMax : Z }.
Definition DEFAULTS_arms : ArmsCfg := {| countMin := 3; countMax := 7 |}.

(** The attributes of the star geometry (all [Float32Array]s). *)
Record Stars : Type := mkStars {
  starPositions : list float;
  starColors : list float;
  starTiers : list float
}.

(** The fields of a mode instance that the builders and the deformation
    loop read or write; [None] is [null]. *)
Record State : Type := mkState {
  cfgArms : ArmsCfg;
  hasAnalyser : bool;
  songHash : option string;
  ARMS_COUNT : option float;
  stars : option Stars;
  baseHues : option (list float);
  basePositions : option (list float);
  baseShapeTiers : option (list float);
  initialYs : option (list float);
  sortedYs : option (list float);
  phiCache : option (list float);
  rCache : option (list float)
}.

(** The instance the constructor leaves, before [init()] builds anything. *)
Definition constructed (arms : ArmsCfg) (analyser : bool) (hash : option string) : State :=
  {| cfgArms := arms; hasAnalyser := analyser; songHash := hash;
     ARMS_COUNT := None; stars := None; baseHues := None; basePositions := None;
     baseShapeTiers := None; initialYs := None; sortedYs := None;
     phiCache := None; rCache := None |}.

(** [String(n)] for a non-negative integer. *)
Definition String_of_nat (n : nat) : string :=
  match n with
  | O => "0"
  | _ => NilEmpty.string_of_uint (Nat.to_uint n)
  end.

(** [this.songHash || String(n)]. *)
Definition seedOf (this : State) (n : nat) : string :=
  match songHash this with
  | Some h => JS.orDefault h (String_of_nat n)
  | None => String_of_nat n
  end.

(** [_chooseArmsCount(rand)]: the chosen count (stored in [ARMS_COUNT]). *)
Definition chooseArmsCount (a : ArmsCfg) : Prng.Rand float :=
  let min := Z.max 1 (JS.toInt32 (countMin a)) in
  let max := Z.max min (JS.toInt32 (countMax a)) in
  r <- Prng.rand ;;
  Prng.ret (JS.ofZ min + JS.Math_floorF (r * JS.ofZ (max - min + 1))).

(** What one iteration of a builder loop writes for point [i]. *)
Record Point : Type := mkPoint {
  pt_x : float; pt_y : float; pt_z : float;
  pt_baseHue : float;
  pt_color : float * float * float;
  pt_tier : float
}.

(** The loop body of [createGalaxyFromNeuralMap]. *)
Definition mapPoint (data : list Node) (N : nat) (armsCount : float) (i : nat)
  : Prng.Rand Point :=
  let node := nth (i mod List.length data) data MapDNA.blankNode in
  let posV := position node in
  let amp := amp node in
  let freq := freq node in
  let hue := JS.rem (hue node) 1 in
  let armIdx := JS.rem (JS.ofNat i) armsCount / armsCount in
  let armAngle := armIdx * Math_PI * 2 in
  let t := JS.ofNat i / JS.ofNat N in
  r1 <- Prng.rand ;;
  let radiusBase := vlength posV * 1.4 + amp * 90 + r1 * 20 in
  let swirl := (t * 7.0 + freq * 1.5) * Math_PI in
  let angle := (hue * Math_PI * 2) + armAngle + swirl
               + Math_sin (freq * 20 + JS.ofNat i * 0.1) * 0.6 in
  let u := JS.clamp (freq * 8.0) 0 1 in
  let phi := (1.0 - u) * Math_PI in
  let lat := Math_sin phi in
  r2 <- Prng.rand ;;
  let ripple := (Math_sin (freq * 18 + t * 10) * 10) + (r2 - 0.5) * 7 in
  let R := JS.Math_max 1e-3 (radiusBase + ripple) in
  let x := Math_cos angle * (R * lat) in
  let z := Math_sin angle * (R * lat) in
  let y := Math_cos phi * R in
  let baseHue := JS.rem (hue + freq * 0.30) 1 in
  let fNorm := JS.clamp (freq * 8.0) 0 1 in
  Prng.ret {| pt_x := x; pt_y := y; pt_z := z;
              pt_baseHue := baseHue;
              pt_color := setHSL baseHue 1.0 0.58;
              pt_tier := if fNorm <? 0.33 then 0.0 else if fNorm <? 0.66 then 1.0 else 2.0 |}.

(** The loop body of [createNeutralSpiral]. *)
Definition spiralPoint (N : nat) (armsCount : float) (i : nat) : Prng.Rand Point :=
  let t := JS.ofNat i / JS.ofNat N in
  let radius := 50 + t * 200 in
  let armIdx := JS.rem (JS.ofNat i) armsCount / armsCount in
  let armAngle := armIdx * Math_PI * 2 in
  let angle := t * Math_PI * 6 + armAngle * 0.35 in
  let u := JS.clamp t 0 1 in
  let phi := (1.0 - u) * Math_PI in
  let lat := Math_sin phi in
  r <- Prng.rand ;;
  let ripple := (Math_sin (angle * 2.0) * 10) + (r - 0.5) * 6 in
  let R := JS.Math_max 1e-3 (radius + ripple) in
  let x := Math_cos angle * (R * lat) in
  let z := Math_sin angle * (R * lat) in
  let y := Math_cos phi * R in
  let baseHue := JS.rem (0.6 + t * 0.4) 1 in
  Prng.ret {| pt_x := x; pt_y := y; pt_z := z;
              pt_baseHue := baseHue;
              pt_color := setHSL baseHue 1.0 0.58;
              pt_tier := 1.0 |}.

(** The four [Float32Array]s a builder loop fills. *)
Definition positionsOf (pts : list Point) : list float :=
  flat_map (fun p => [JS.Math_fround (pt_x p); JS.Math_fround (pt_y p);
                      JS.Math_fround (pt_z p)]) pts.

Definition colorsOf (pts : list Point) : list float :=
  flat_map (fun p => let '(r, g, b) := pt_color p in
                     [JS.Math_fround r; JS.Math_fround g; JS.Math_fround b]) pts.

Definition shapeTiersOf (pts : list Point) : list float :=
  map (fun p => JS.Math_fround (pt_tier p)) pts.

Definition baseHuesOf (pts : list Point) : list float :=
  map (fun p => JS.Math_fround (pt_baseHue p)) pts.

(** [Array.from(ys).sort((a, b) => a - b)], as an insertion sort (the
    order among NaN entries is left to the engine). *)
Fixpoint insertSorted (x : float) (l : list float) : list float :=
  match l with
  | [] => [x]
  | y :: l' => if 0 <? x - y then y :: insertSorted x l' else x :: l
  end.

Definition sortNumbers (l : list float) : list float := fold_right insertSorted [] l.

(** [_cacheBaselines(positions, shapeTiers)]. *)
Definition cacheBaselines (this : State) (positions shapeTiers : list float) : State :=
  let N := (List.length positions / 3)%nat in
  let ys := map (fun i => nth (i * 3 + 1) positions 0) (seq 0 N) in
  {| cfgArms := cfgArms this; hasAnalyser := hasAnalyser this; songHash := songHash this;
     ARMS_COUNT := ARMS_COUNT this; stars := stars this; baseHues := baseHues this;
     basePositions := Some positions;
     baseShapeTiers := Some shapeTiers;
     initialYs := Some ys;
     sortedYs := Some (sortNumbers ys);
     phiCache := phiCache this; rCache := rCache this |}.

(** [clearStars()]. *)
Definition clearStars (this : State) : State :=
  {| cfgArms := cfgArms this; hasAnalyser := hasAnalyser this; songHash := songHash this;
     ARMS_COUNT := ARMS_COUNT this; stars := None; baseHues := baseHues this;
     basePositions := basePositions this; baseShapeTiers := baseShapeTiers this;
     initialYs := initialYs this; sortedYs := sortedYs this;
     phiCache := phiCache this; rCache := rCache this |}.

(** [_commitStars(positions, colors, shapeTiers)]. *)
Definition commitStars (this : State) (positions colors shapeTiers : list float) : State :=
  let this1 := clearStars this in
  {| cfgArms := cfgArms this1; hasAnalyser := hasAnalyser this1; songHash := songHash this1;
     ARMS_COUNT := ARMS_COUNT this1;
     stars := Some {| starPositions := positions; starColors := colors;
                      starTiers := shapeTiers |};
     baseHues := baseHues this1;
     basePositions := basePositions this1; baseShapeTiers := baseShapeTiers this1;
     initialYs := initialYs this1; sortedYs := sortedYs this1;
     phiCache := phiCache this1; rCache := rCache this1 |}.

(** What every builder does with the points of its loop: [ARMS_COUNT]
    and [baseHues] are assigned, then [_cacheBaselines] and
    [_commitStars] run.  None of them assigns the smoothing caches. *)
Definition commit (this : State) (armsCount : float) (pts : list Point) : State :=
  let this1 :=
    {| cfgArms := cfgArms this; hasAnalyser := hasAnalyser this; songHash := songHash this;
       ARMS_COUNT := Some armsCount; stars := stars this;
       baseHues := Some (baseHuesOf pts);
       basePositions := basePositions this; baseShapeTiers := baseShapeTiers this;
       initialYs := initialYs this; sortedYs := sortedYs this;
       phiCache := phiCache this; rCache := rCache this |} in
  commitStars (cacheBaselines this1 (positionsOf pts) (shapeTiersOf pts))
    (positionsOf pts) (colorsOf pts) (shapeTiersOf pts).

(** [createNeutralSpiral(N)]. *)
Definition createNeutralSpiral (this : State) (N : nat) : State :=
  let '(armsCount, pts) :=
    Prng.run (seedOf this N)
      (armsCount <- chooseArmsCount (cfgArms this) ;;
       pts <- Prng.mapM (spiralPoint N armsCount) (seq 0 N) ;;
       Prng.ret (armsCount, pts)) in
  commit this armsCount pts.

(** [createGalaxyFromNeuralMap(data)], for an array [data]. *)
Definition createGalaxyFromNeuralMap (this : State) (data : list Node) : State :=
  let N := Nat.min 4000 (Nat.max 900 (List.length data * 10)) in
  match data with
  | [] => createNeutralSpiral this N
  | _ =>
      let '(armsCount, pts) :=
        Prng.run (seedOf this (List.length data))
          (armsCount <- chooseArmsCount (cfgArms this) ;;
           pts <- Prng.mapM (mapPoint data N armsCount) (seq 0 N) ;;
           Prng.ret (armsCount, pts)) in
      commit this armsCount pts
  end.

(** The point count [positions.length / 3] of the committed stars. *)
Definition pointCount (this : State) : nat :=
  match stars this with
  | Some s => List.length (starPositions s) / 3
  | None => O
  end.

(** *** The smoothing caches in [updateStars]

    The deformation of one point is a function of the frame inputs (time,
    sensitivity, the audio feature frame), of the immutable base data and
    of the two cached values; the parts that do not touch the caches are
    taken as parameters. *)
Variable Frame : Type.

(** [phi0], [phiTarget], [rBase] and [rTarget] of point [i]. *)
Variables phi0_of phiTarget_of rBase_of rTarget_of : State -> Frame -> nat -> float.

(** The smoothing coefficients [aPhi] and [aR] of the frame. *)
Variables aPhi_of aR_of : Frame -> float.

(** The position, colour and tier written for point [i], from the
    smoothed [phi] and [rS]. *)
Variable render : State -> Frame -> nat -> float -> float -> Point.

(** [if (!cache || cache.length !== count) cache = new Float32Array(count)]. *)
Definition ensureCache (cache : option (list float)) (count : nat) : list float :=
  match cache with
  | Some c => if Nat.eqb (List.length c) count then c else repeat 0 count
  | None => repeat 0 count
  end.

(** The early [return] of [updateStars]. *)
Definition updateStars_skips (this : State) : bool :=
  match stars this, basePositions this, sortedYs this with
  | Some _, Some _, Some ys => negb (hasAnalyser this) || Nat.ltb (List.length ys) 2
  | _, _, _ => true
  end.

(** One iteration of the per-point loop on the two caches: the value
    read ([cache[i] ?? fallback]), smoothed, and stored back. *)
Definition smoothPoint (this : State) (f : Frame) (i : nat)
    (caches : list float * list float * list Point)
  : list float * list float * list Point :=
  let '(phis, rs, out) := caches in
  let prevPhi := match nth_error phis i with Some v => v | None => phi0_of this f i end in
  let phi := prevPhi + (phiTarget_of this f i - prevPhi) * aPhi_of f in
  let prevR := match nth_error rs i with Some v => v | None => rBase_of this f i end in
  let rS := prevR + (rTarget_of this f i - prevR) * aR_of f in
  (update_nth i (fun _ => JS.Math_fround phi) phis,
   update_nth i (fun _ => JS.Math_fround rS) rs,
   out ++ [render this f i phi rS]).

(** [updateStars()] for the frame inputs [f]. *)
Definition updateStars (this : State) (f : Frame) : State :=
  if updateStars_skips this then this
  else
    let count := pointCount this in
    let phis := ensureCache (phiCache this) count in
    let rs := ensureCache (rCache this) count in
    let '(phis', rs', out) :=
      fold_left (fun acc i => smoothPoint this f i acc) (seq 0 count) (phis, rs, []) in
    {| cfgArms := cfgArms this; hasAnalyser := hasAnalyser this; songHash := songHash this;
       ARMS_COUNT := ARMS_COUNT this;
       stars := Some {| starPositions := positionsOf out; starColors := colorsOf out;
                        starTiers := shapeTiersOf out |};
       baseHues := baseHues this; basePositions := basePositions this;
       baseShapeTiers := baseShapeTiers this; initialYs := initialYs this;
       sortedYs := sortedYs this;
       phiCache := Some phis'; rCache := Some rs' |}.

End Mode.
End Galaxy.

(* ================================================================== *)
(** * Part II: exact-arithmetic model of the per-frame code            *)
(* ================================================================== *)

(** ** src/modes/NeuralGalaxy.js: class AudioFeatures (over the rationals) *)
Module AudioFeatures.

Local Open Scope Q_scope.

(** [THREE.MathUtils.clamp(value, min, max)]. *)
Definition clamp (value lo hi : Q) : Q := Qmax lo (Qmin hi value).

(** [cfg.audio] and [cfg.impact]. *)
Record AudioCfg : Type := mkAudioCfg {
  bassEnd : Q; lowMidEnd : Q; highMidEnd : Q;
  envLerp : Q; envHold : Q;
  midPulseHold : Q; midPulseIn : Q;
  sensGainMin : Q; sensGainMaxAdd : Q
}.

Record ImpactCfg : Type := mkImpactCfg { bassHitAttack : Q; bassHitDecay : Q }.

Record Cfg : Type := mkCfg { audio : AudioCfg; impact : ImpactCfg }.


Record Bands : Type := mkBands { bass : Q; lowMid : Q; highMid : Q; treble : Q }.

(** The scalars persisted across calls. *)
Record State : Type := mkState {
  prevLowMid : Q; prevBass : Q;
  bassEnv : Q; trebleEnv : Q;
  midPulse : Q; bassHit : Q
}.


(** The eight accumulators of the loop in [_computeBands]. *)
Record Sums : Type := mkSums {
  sumBass : Z; nBass : Z; sumLowMid : Z; nLowMid : Z;
  sumHighMid : Z; nHighMid : Z; sumTreble : Z; nTreble : Z
}.

Definition noSums : Sums := mkSums 0 0 0 0 0 0 0 0.

(** One iteration, for bin [i] with value [v]. *)
Definition addBin (bassEnd lowMidEnd highMidEnd : Z) (s : Sums) (iv : Z * Z) : Sums :=
  let (i, v) := iv in
  if (i <? bassEnd)%Z then
    mkSums (sumBass s + v) (nBass s + 1) (sumLowMid s) (nLowMid s)
           (sumHighMid s) (nHighMid s) (sumTreble s) (nTreble s)
  else if (i <? lowMidEnd)%Z then
    mkSums (sumBass s) (nBass s) (sumLowMid s + v) (nLowMid s + 1)
           (sumHighMid s) (nHighMid s) (sumTreble s) (nTreble s)
  else if (i <? highMidEnd)%Z then
    mkSums (sumBass s) (nBass s) (sumLowMid s) (nLowMid s)
           (sumHighMid s + v) (nHighMid s + 1) (sumTreble s) (nTreble s)
  else
    mkSums (sumBass s) (nBass s) (sumLowMid s) (nLowMid s)
           (sumHighMid s) (nHighMid s) (sumTreble s + v) (nTreble s + 1).

(** [(n ? sum / n : 0) / 255]. *)
Definition bandMean (sum n : Z) : Q :=
  (if (n =? 0)%Z then 0 else inject_Z sum / inject_Z n) / 255.

(** The pairs [(i, dataArray[i])]. *)
Definition indexed (dataArray : list Z) : list (Z * Z) :=
  combine (map Z.of_nat (seq 0 (List.length dataArray))) dataArray.

(** [_computeBands(dataArray)]. *)
Definition computeBands (cfg : Cfg) (dataArray : list Z) : Bands :=
  let len := Z.of_nat (List.length dataArray) in
  if (len =? 0)%Z then mkBands 0 0 0 0
  else
    let bassEnd := Qfloor (inject_Z len * bassEnd (audio cfg)) in
    let lowMidEnd := Qfloor (inject_Z len * lowMidEnd (audio cfg)) in
    let highMidEnd := Qfloor (inject_Z len * highMidEnd (audio cfg)) in
    let s := fold_left (addBin bassEnd lowMidEnd highMidEnd) (indexed dataArray) noSums in
    {| bass := bandMean (sumBass s) (nBass s);
       lowMid := bandMean (sumLowMid s) (nLowMid s);
       highMid := bandMean (sumHighMid s) (nHighMid s);
       treble := bandMean (sumTreble s) (nTreble s) |}.

(** The object [sample] returns. *)
Record Frame : Type := mkFrame {
  F_data : list Z;
  F_sensGain : Q;
  F_bands : Bands;
  F_pulseScaled : Q;
  F_bassEnv : Q;
  F_trebleEnv : Q;
  F_bassHit : Q;
  F_loudness : Q
}.

(** [sample(sensNorm, cfg)], where [data] is the snapshot that
    [getByteFrequencyData] wrote. *)
Definition sample (cfg : Cfg) (this : State) (data : list Z) (sensNorm : Q)
  : State * Frame :=
  let sensGain := sensGainMin (audio cfg) + sensNorm * sensGainMaxAdd (audio cfg) in
  let bands := computeBands cfg data in
  let dLowMid := lowMid bands - prevLowMid this in
  let rawPulse := Qmax 0 (dLowMid * 9.0) in
  let midPulse1 := midPulse this * midPulseHold (audio cfg) + rawPulse * midPulseIn (audio cfg) in
  let midPulse2 := clamp midPulse1 0 1.5 in
  let pulseScaled := clamp (midPulse2 * (0.65 + sensNorm * 1.35)) 0 1.0 in
  let bassTarget := clamp (bass bands * sensGain) 0 1 in
  let trebleTarget := clamp (treble bands * sensGain) 0 1 in
  let bassEnv1 := bassEnv this * envHold (audio cfg) + bassTarget * envLerp (audio cfg) in
  let trebleEnv1 := trebleEnv this * envHold (audio cfg) + trebleTarget * envLerp (audio cfg) in
  let dBass := bass bands - prevBass this in
  let hit := Qmax 0 dBass * (10.0 + sensNorm * 20.0) in
  let bassHit1 := bassHit this * bassHitDecay (impact cfg) + hit * bassHitAttack (impact cfg) in
  let bassHit2 := clamp bassHit1 0 1.25 in
  let loudness := (bass bands + lowMid bands + highMid bands + treble bands) * 0.25 in
  ({| prevLowMid := lowMid bands; prevBass := bass bands;
      bassEnv := bassEnv1; trebleEnv := trebleEnv1;
      midPulse := midPulse2; bassHit := bassHit2 |},
   {| F_data := data; F_sensGain := sensGain; F_bands := bands;
      F_pulseScaled := pulseScaled;
      F_bassEnv := clamp bassEnv1 0 1;
      F_trebleEnv := clamp trebleEnv1 0 1;
      F_bassHit := bassHit2;
      F_loudness := loudness |}).

(** The value [updateStars] writes to the [uBassHit] uniform. *)
Definition uBassHit (F : Frame) (sensNorm : Q) : Q :=
  clamp (F_bassHit F * (0.85 + sensNorm * 0.55)) 0 1.35.

(** Successive calls of [sample], one per frame; the result is the final
    state and the frames returned, oldest first. *)
Fixpoint run (cfg : Cfg) (this : State) (frames : list (list Z * Q))
  : State * list (State * Frame) :=
  match frames with
  | [] => (this, [])
  | (data, sensNorm) :: rest =>
      let (this1, F) := sample cfg this data sensNorm in
      let (final, out) := run cfg this1 rest in
      (final, (this1, F) :: out)
  end.








End AudioFeatures.

(** ** src/modes/NeuralGalaxy.js: the logistic zone weights (over the reals) *)
Module Zones.

Local Open Scope R_scope.

(** [THREE.MathUtils.clamp(value, min, max)]. *)
Definition clamp (value lo hi : R) : R := Rmax lo (Rmin hi value).



(** [cfg.blend]; a missing key is [None]. *)
Record BlendCfg : Type := mkBlendCfg {
  bassEdge : option R;
  trebleEdge : option R;
  softness : option R
}.

(** [v ?? d]. *)
Definition orElse (v : option R) (d : R) : R :=
  match v with Some x => x | None => d end.

Definition bassEdgeN (cfg : BlendCfg) : R := clamp (orElse (bassEdge cfg) 0.22) 0.02 0.48.
Definition trebleEdgeN (cfg : BlendCfg) : R := clamp (orElse (trebleEdge cfg) 0.78) 0.52 0.98.
Definition softnessK (cfg : BlendCfg) : R := clamp (orElse (softness cfg) 0.08) 0.015 0.25.

(** [yNorm] of a point with base height [by_]. *)
Definition yNorm (by_ yMin yMax : R) : R :=
  clamp ((by_ - yMin) / Rmax 1e-6 (yMax - yMin)) 0 1.


(** [tiers[i] = 0.0 * wB + 1.0 * wM + 2.0 * wT]. *)
Definition tierOf (w : R * R * R) : R :=
  let '(wB, wM, wT) := w in 0.0 * wB + 1.0 * wM + 2.0 * wT.

End Zones.

(** ** src/modes/NeuralGalaxy.js: the arm-lane pull (over the reals) *)
Module ArmLane.

Local Open Scope R_scope.







End ArmLane.

(* ================================================================== *)
(** * Concrete inputs used in the examples below                       *)
(* ================================================================== *)
Module Examples.

(** A buffer with no samples. *)
Definition emptyBuffer : AudioBuffer :=
  {| channel0 := []; otherChannels := []; sampleRate := 44100; duration := 0 |}.

(** 51 samples [0, 1/64, ..., 50/64]: one more than the 50 nodes of a
    short buffer. *)
Definition rampSamples : list float :=
  map (fun i => (JS.ofNat i / 64)%float) (seq 0 51).

Definition rampBuffer : AudioBuffer :=
  {| channel0 := rampSamples; otherChannels := []; sampleRate := 44100; duration := 0 |}.

(** Three seconds of a square wave, in mono and with a second channel at
    another sample rate. *)
Definition squareWave : list float :=
  flat_map (fun _ => [0.5; 0.5; -0.25; -0.25]%float) (seq 0 40).

Definition monoBuffer : AudioBuffer :=
  {| channel0 := squareWave; otherChannels := []; sampleRate := 44100; duration := 3 |}.

Definition stereoBuffer : AudioBuffer :=
  {| channel0 := squareWave; otherChannels := [repeat 0%float 160];
     sampleRate := 48000; duration := 3 |}.

(** A one-second buffer whose first sample is NaN. *)
Definition nanBuffer : AudioBuffer :=
  {| channel0 := [nan; 0.5%float]; otherChannels := []; sampleRate := 44100;
     duration := 1 |}.

(** A galaxy instance that has built the fallback structure for the song
    hash ["a"] and has run one frame in which every point was smoothed
    half-way from the fresh cache value 0 towards the targets
    [phiTarget = 1] and [rTarget = 100]. *)
Definition afterOneFrame (Math_sin Math_cos : float -> float)
    (setHSL : float -> float -> float -> float * float * float) : Galaxy.State :=
  Galaxy.updateStars unit
    (fun _ _ _ => 1%float) (fun _ _ _ => 1%float)
    (fun _ _ _ => 100%float) (fun _ _ _ => 100%float)
    (fun _ => 0.5%float) (fun _ => 0.5%float)
    (fun _ _ _ phi rS => Galaxy.mkPoint rS phi 0 0 (0, 0, 0)%float 1)
    (Galaxy.createGalaxyFromNeuralMap Math_sin Math_cos setHSL
       (Galaxy.constructed Galaxy.DEFAULTS_arms true (Some "a"%string)) [])
    tt.

(** The same instance once [onNewAudio] has stored the hash ["b"] of
    another song. *)
Definition withSongHash (hash : string) (this : Galaxy.State) : Galaxy.State :=
  {| Galaxy.cfgArms := Galaxy.cfgArms this; Galaxy.hasAnalyser := Galaxy.hasAnalyser this;
     Galaxy.songHash := Some hash; Galaxy.ARMS_COUNT := Galaxy.ARMS_COUNT this;
     Galaxy.stars := Galaxy.stars this; Galaxy.baseHues := Galaxy.baseHues this;
     Galaxy.basePositions := Galaxy.basePositions this;
     Galaxy.baseShapeTiers := Galaxy.baseShapeTiers this;
     Galaxy.initialYs := Galaxy.initialYs this; Galaxy.sortedYs := Galaxy.sortedYs this;
     Galaxy.phiCache := Galaxy.phiCache this; Galaxy.rCache := Galaxy.rCache this |}.

(** Polynomial stand-ins for the engine's [Math.sin] and [Math.cos], to
    run the generators on the inputs above. *)
Definition polySin (x : float) : float := (x - x * x * x / 6)%float.
Definition polyCos (x : float) : float := (1 - x * x / 2)%float.


End Examples.

(* ================================================================== *)
(** * Part III: properties                                             *)
(* ================================================================== *)

(** ** Loops in the [Rand] monad *)
Module RandFacts.
Import Prng.

Lemma mapM_length {I A} (f : I -> Rand A) (l : list I) (h : Z) :
  List.length (fst (mapM f l h)) = List.length l.
Proof.
  revert h; induction l as [|i l IH]; intros h; simpl; [reflexivity|].
  unfold bind. destruct (f i h) as [a h1].
  specialize (IH h1). destruct (mapM f l h1) as [rest h2]; simpl in *.
  now rewrite IH.
Qed.

Lemma mapM_map {I A B} (f : I -> Rand A) (g : A -> B) (k : I -> B) :
  (forall i h, g (fst (f i h)) = k i) ->
  forall l h, map g (fst (mapM f l h)) = map k l.
Proof.
  intros Hf l; induction l as [|i l IH]; intros h; simpl; [reflexivity|].
  unfold bind. pose proof (Hf i h) as Hi. destruct (f i h) as [a h1].
  specialize (IH h1). destruct (mapM f l h1) as [rest h2]; simpl in *.
  now rewrite Hi, IH.
Qed.

Lemma mapM_sim {I A B} (f : I -> Rand A) (f' : I -> Rand B) (g : A -> B) (l : list I) :
  (forall i, In i l -> forall h, f' i h = (g (fst (f i h)), snd (f i h))) ->
  forall h, mapM f' l h = (map g (fst (mapM f l h)), snd (mapM f l h)).
Proof.
  induction l as [|i l IH]; intros Hf h; simpl; [reflexivity|].
  unfold bind. rewrite (Hf i (or_introl eq_refl) h).
  destruct (f i h) as [a h1]; simpl.
  rewrite (IH (fun j Hj => Hf j (or_intror Hj)) h1).
  destruct (mapM f l h1) as [rest h2]; reflexivity.
Qed.

Lemma forM_invariant {I A} (P : A -> Prop) (body : I -> A -> Rand A) :
  (forall i a h, P a -> P (fst (body i a h))) ->
  forall l a h, P a -> P (fst (forM l body a h)).
Proof.
  intros Hb l; induction l as [|i l IH]; intros a h Ha; simpl; [exact Ha|].
  unfold bind. pose proof (Hb i a h Ha) as H1.
  destruct (body i a h) as [a1 h1]; simpl in *. now apply IH.
Qed.

Lemma forM_sim {I A B} (R : A -> B -> Prop)
    (body : I -> A -> Rand A) (body' : I -> B -> Rand B) :
  (forall i a b h, R a b ->
     R (fst (body i a h)) (fst (body' i b h)) /\ snd (body i a h) = snd (body' i b h)) ->
  forall l a b h, R a b ->
    R (fst (forM l body a h)) (fst (forM l body' b h))
    /\ snd (forM l body a h) = snd (forM l body' b h).
Proof.
  intros Hb l; induction l as [|i l IH]; intros a b h Hab; simpl; [now split|].
  unfold bind. destruct (Hb i a b h Hab) as [H1 H2].
  destruct (body i a h) as [a1 h1]; destruct (body' i b h) as [b1 h1']; simpl in *.
  subst h1'. now apply IH.
Qed.

End RandFacts.

(** ** Binary64 facts used below *)
Module FloatFacts.

Lemma shr_1_nonneg (mrs : shr_record) :
  (0 <= shr_m mrs)%Z -> (0 <= shr_m (shr_1 mrs))%Z.
Proof.
  destruct mrs as [m r s]; simpl.
  destruct m as [|p|p]; [|destruct p|]; simpl; lia.
Qed.

Lemma iter_pos_invariant {A} (P : A -> Prop) (f : A -> A) :
  (forall a, P a -> P (f a)) -> forall n a, P a -> P (SpecFloat.iter_pos f n a).
Proof.
  intros Hf n; induction n as [n IH|n IH|]; intros a Ha; simpl; auto.
Qed.

Lemma shr_fexp_nonneg (m e : Z) (l : location) :
  (0 <= m)%Z -> (0 <= shr_m (fst (shr_fexp prec emax m e l)))%Z.
Proof.
  intros Hm. unfold shr_fexp, shr.
  assert (H0 : (0 <= shr_m (shr_record_of_loc m l))%Z)
    by (destruct l as [|[]]; simpl; exact Hm).
  destruct (fexp prec emax (Zdigits2 m + e) - e)%Z; simpl; auto.
  apply (iter_pos_invariant (fun r => (0 <= shr_m r)%Z)); auto using shr_1_nonneg.
Qed.

Lemma round_nearest_even_nonneg (m : Z) (l : location) :
  (0 <= m)%Z -> (0 <= round_nearest_even m l)%Z.
Proof.
  intros Hm. destruct l as [|[]]; simpl; try lia.
  destruct (Z.even m); lia.
Qed.

Lemma binary_round_aux_not_nan (s : bool) (m e : Z) (l : location) :
  (0 <= m)%Z -> binary_round_aux prec emax s m e l <> S754_nan.
Proof.
  intros Hm. unfold binary_round_aux.
  pose proof (shr_fexp_nonneg m e l Hm) as H1.
  destruct (shr_fexp prec emax m e l) as [mrs' e'] eqn:E1. simpl in H1.
  pose proof (shr_fexp_nonneg _ e' loc_Exact
                (round_nearest_even_nonneg _ (loc_of_shr_record mrs') H1)) as H2.
  destruct (shr_fexp prec emax _ e' loc_Exact) as [mrs'' e''] eqn:E2. simpl in H2.
  destruct (shr_m mrs''); try discriminate; try lia.
  destruct (e'' <=? emax - prec)%Z; discriminate.
Qed.

Lemma is_nan_spec (x : float) : is_nan x = false <-> Prim2SF x <> S754_nan.
Proof.
  unfold is_nan. rewrite FloatAxioms.eqb_spec. unfold SFeqb.
  pose proof (Prim2SF_valid x) as Hv.
  destruct (Prim2SF x) as [s|s| |s m e]; simpl.
  - destruct s; split; intros; try discriminate; reflexivity.
  - destruct s; split; intros; try discriminate; reflexivity.
  - split; [discriminate | congruence].
  - rewrite Z.compare_refl, Pos.compare_cont_refl.
    destruct s; simpl; split; intros; try discriminate; reflexivity.
Qed.

Lemma leb_zero_not_nan (x : float) : (0 <=? x)%float = true -> is_nan x = false.
Proof.
  intros H. apply is_nan_spec. intros E. rewrite FloatAxioms.leb_spec, E in H.
  unfold SFleb, SFcompare in H. destruct (Prim2SF 0); discriminate.
Qed.

Lemma mul_ten_not_nan (x : float) : is_nan x = false -> is_nan (x * 10)%float = false.
Proof.
  rewrite !is_nan_spec. intros Hx.
  rewrite FloatAxioms.mul_spec. unfold SF64mul.
  change (Prim2SF 10) with (S754_finite false 5629499534213120 (-49)).
  destruct (Prim2SF x) as [sx|sx| |sx mx ex]; simpl; try discriminate; try congruence.
  apply binary_round_aux_not_nan. lia.
Qed.

Lemma Math_floor_not_nan (x : float) : is_nan x = false -> JS.Math_floor x <> JS.JNaN.
Proof.
  rewrite is_nan_spec. unfold JS.Math_floor.
  destruct (Prim2SF x) as [s|s| |s m e]; try discriminate; try congruence.
  destruct s; discriminate.
Qed.

End FloatFacts.

(** ** Slices *)
Module SliceFacts.

Lemma subarray_skipn_firstn {A} (data : list A) (s e : nat) :
  JS.subarray data s e = skipn s (firstn e data).
Proof.
  unfold JS.subarray. rewrite skipn_firstn_comm.
  destruct (Nat.le_gt_cases (List.length data) s) as [Hs|Hs].
  - rewrite (Nat.min_r s (List.length data)) by exact Hs.
    rewrite (@skipn_all2 _ s data Hs), skipn_all. now rewrite !firstn_nil.
  - rewrite (Nat.min_l s) by lia.
    destruct (Nat.le_gt_cases (List.length data) e) as [He|He].
    + rewrite (Nat.min_r e (List.length data)) by exact He.
      rewrite !firstn_all2; rewrite ?length_skipn; try lia. reflexivity.
    + now rewrite (Nat.min_l e) by lia.
Qed.

Lemma nodeSlice_eq (data : list float) (step i : nat) :
  MapDNA.nodeSlice data step i = skipn (i * step) (firstn ((i + 1) * step) data).
Proof.
  unfold MapDNA.nodeSlice. rewrite subarray_skipn_firstn.
  f_equal.
  destruct (Nat.le_gt_cases (List.length data) ((i + 1) * step)) as [H|H].
  - rewrite Nat.min_l by exact H. now rewrite firstn_all, firstn_all2.
  - now rewrite Nat.min_r by lia.
Qed.

Lemma nodeSlice_length (data : list float) (step i : nat) :
  List.length (MapDNA.nodeSlice data step i)
  = Nat.min ((i + 1) * step) (List.length data) - i * step.
Proof. now rewrite nodeSlice_eq, length_skipn, length_firstn. Qed.

Lemma skipn_firstn_Forall {A} (P : A -> Prop) (data : list A) (s e : nat) :
  Forall P data -> Forall P (skipn s (firstn e data)).
Proof.
  intros H. revert s e. induction H as [|a l Ha Hl IH]; intros s e.
  - rewrite firstn_nil, skipn_nil. constructor.
  - destruct e as [|e]; [rewrite skipn_nil; constructor|].
    destruct s as [|s]; simpl.
    + constructor; [exact Ha|]. exact (IH O e).
    + exact (IH s e).
Qed.

(** The slices the node loop reads, laid end to end, are the first
    [n * step] samples. *)
Lemma slices_concat (data : list float) (step n : nat) :
  List.concat (map (MapDNA.nodeSlice data step) (seq 0 n)) = firstn (n * step) data.
Proof.
  induction n as [|n IH]; [reflexivity|].
  rewrite seq_S, map_app, concat_app, IH. simpl. rewrite app_nil_r.
  rewrite nodeSlice_eq.
  replace (firstn (n * step) data)
    with (firstn (n * step) (firstn ((n + 1) * step) data)).
  - rewrite firstn_skipn. f_equal. lia.
  - rewrite firstn_firstn. f_equal. lia.
Qed.

Lemma sliceStep_fits (len n : nat) : n <= len -> n * sliceStep len n <= len.
Proof.
  intros H. unfold sliceStep.
  destruct n as [|n]; [simpl; lia|].
  assert (1 <= len / S n) by (apply Nat.div_le_lower_bound; lia).
  rewrite Nat.max_r by lia. apply Nat.Div0.mul_div_le.
Qed.

Lemma sliceStep_short (len n : nat) : len < n -> sliceStep len n = 1.
Proof.
  intros H. unfold sliceStep. rewrite Nat.div_small by exact H. reflexivity.
Qed.

End SliceFacts.

(** ** Structure of the generated node list *)
Module GeneratorFacts.

Lemma update_nth_length {A} (i : nat) (f : A -> A) (l : list A) :
  List.length (update_nth i f l) = List.length l.
Proof.
  revert i; induction l as [|a l IH]; intros [|i]; simpl; auto.
Qed.

Lemma update_nth_map_inv {A B} (g : A -> B) (f : A -> A) :
  (forall a, g (f a) = g a) ->
  forall i l, map g (update_nth i f l) = map g l.
Proof.
  intros Hf i l; revert i; induction l as [|a l IH]; intros [|i]; simpl;
    rewrite ?Hf, ?IH; reflexivity.
Qed.

Lemma update_nth_map {A B} (g : A -> B) (f : A -> A) (f' : B -> B) :
  (forall a, g (f a) = f' (g a)) ->
  forall i l, map g (update_nth i f l) = update_nth i f' (map g l).
Proof.
  intros Hf i l; revert i; induction l as [|a l IH]; intros [|i]; simpl;
    rewrite ?Hf, ?IH; reflexivity.
Qed.

Lemma connectPair_features (i j : nat) (nodes : list Node) (h : Z) :
  map MapDNA.features (fst (MapDNA.connectPair i j nodes h)) = map MapDNA.features nodes.
Proof.
  unfold MapDNA.connectPair.
  destruct (Nat.eqb i j); [reflexivity|].
  destruct (_ <? 8)%float; [|reflexivity].
  unfold Prng.bind, Prng.rand, Prng.ret.
  match goal with |- context [if ?c then _ else _] => destruct c end;
    simpl; [|reflexivity].
  now apply update_nth_map_inv.
Qed.

Lemma connectionLoop_features (n : nat) (nodes : list Node) (h : Z) :
  map MapDNA.features (fst (MapDNA.connectionLoop n nodes h)) = map MapDNA.features nodes.
Proof.
  unfold MapDNA.connectionLoop.
  apply (RandFacts.forM_invariant (fun ns => map MapDNA.features ns = map MapDNA.features nodes));
    [|reflexivity].
  intros i a h1 Ha.
  apply (RandFacts.forM_invariant (fun ns => map MapDNA.features ns = map MapDNA.features nodes));
    [|exact Ha].
  intros j a2 h2 Ha2. now rewrite connectPair_features.
Qed.

Section WithMath.

Variables Math_sin Math_cos : float -> float.

Lemma makeNode_amp_freq (data : list float) (n step i : nat) (h : Z) :
  let nd := fst (MapDNA.makeNode Math_sin Math_cos data n step i h) in
  (amp nd, freq nd) =
  (MapDNA.maxAbs (MapDNA.nodeSlice data step i),
   MapDNA.extractDominantFrequency (MapDNA.nodeSlice data step i)).
Proof. reflexivity. Qed.

(** The nodes before and after the connection pass, for a buffer whose
    node count is [n]. *)
Lemma build_normal (b : AudioBuffer) (seed : string) (n : Z) :
  nodeCount (duration b) = JS.JInt n ->
  exists nodes,
    MapDNA.buildMapDataFromAudio Math_sin Math_cos b seed = Normal nodes
    /\ List.length nodes = Z.to_nat n
    /\ map (fun nd => (amp nd, freq nd)) nodes =
       map (fun i =>
              let s := MapDNA.nodeSlice (channel0 b)
                         (sliceStep (List.length (channel0 b)) (Z.to_nat n)) i in
              (MapDNA.maxAbs s, MapDNA.extractDominantFrequency s))
           (seq 0 (Z.to_nat n)).
Proof.
  intros Hn. unfold MapDNA.buildMapDataFromAudio. rewrite Hn.
  eexists; split; [reflexivity|].
  unfold Prng.run, Prng.bind.
  set (h0 := Prng.seededRandom _).
  set (step := sliceStep _ _).
  destruct (MapDNA.nodeLoop Math_sin Math_cos (channel0 b) (Z.to_nat n) step h0)
    as [nodes0 h1] eqn:E.
  cbv beta iota.
  pose proof (connectionLoop_features (Z.to_nat n) nodes0 h1) as Hf.
  assert (H0 : map (fun nd => (amp nd, freq nd)) nodes0 =
               map (fun i => let s := MapDNA.nodeSlice (channel0 b) step i in
                             (MapDNA.maxAbs s, MapDNA.extractDominantFrequency s))
                   (seq 0 (Z.to_nat n))).
  { replace nodes0 with
      (fst (MapDNA.nodeLoop Math_sin Math_cos (channel0 b) (Z.to_nat n) step h0))
      by now rewrite E.
    unfold MapDNA.nodeLoop. apply RandFacts.mapM_map.
    intros i h. apply makeNode_amp_freq. }
  assert (L0 : List.length nodes0 = Z.to_nat n).
  { replace nodes0 with
      (fst (MapDNA.nodeLoop Math_sin Math_cos (channel0 b) (Z.to_nat n) step h0))
      by now rewrite E.
    unfold MapDNA.nodeLoop. now rewrite RandFacts.mapM_length, length_seq. }
  split.
  - rewrite <- (length_map MapDNA.features), Hf, length_map. exact L0.
  - transitivity (map (fun nd => (amp nd, freq nd)) nodes0); [|exact H0].
    set (g := fun t : nat * Vector3 * float * float * float =>
                let '(_, _, f, a, _) := t in (a, f)).
    change (fun nd => (amp nd, freq nd)) with (fun nd => g (MapDNA.features nd)).
    rewrite <- (map_map MapDNA.features g (fst _)), Hf, map_map. reflexivity.
Qed.

(** Node [i] takes its amp and freq from slice [i]. *)
Lemma build_features (b : AudioBuffer) (seed : string) (n : Z) :
  nodeCount (duration b) = JS.JInt n ->
  exists nodes,
    MapDNA.buildMapDataFromAudio Math_sin Math_cos b seed = Normal nodes
    /\ List.length nodes = Z.to_nat n
    /\ forall i, (i < Z.to_nat n)%nat ->
         let s := MapDNA.nodeSlice (channel0 b)
                    (sliceStep (List.length (channel0 b)) (Z.to_nat n)) i in
         amp (nth i nodes MapDNA.blankNode) = MapDNA.maxAbs s
         /\ freq (nth i nodes MapDNA.blankNode) = MapDNA.extractDominantFrequency s.
Proof.
  intros Hn.
  destruct (build_normal b seed n Hn) as (nodes & Hnodes & Hlen & Hfeat).
  exists nodes. split; [exact Hnodes|]. split; [exact Hlen|].
  intros i Hi. cbv zeta.
  set (data := channel0 b) in *.
  set (step := sliceStep (List.length data) (Z.to_nat n)) in *.
  pose proof (f_equal (fun l => nth i l (0%float, 0%float)) Hfeat) as Hi'.
  cbv beta in Hi'.
  change (0%float, 0%float)
    with ((fun nd => (amp nd, freq nd)) MapDNA.blankNode) in Hi' at 1.
  rewrite map_nth in Hi'.
  rewrite (nth_indep _ _ ((fun j =>
             (MapDNA.maxAbs (MapDNA.nodeSlice data step j),
              MapDNA.extractDominantFrequency (MapDNA.nodeSlice data step j))) O))
    in Hi' by (rewrite length_map, length_seq; exact Hi).
  rewrite (map_nth (fun j =>
             (MapDNA.maxAbs (MapDNA.nodeSlice data step j),
              MapDNA.extractDominantFrequency (MapDNA.nodeSlice data step j)))) in Hi'.
  rewrite seq_nth in Hi' by exact Hi. simpl in Hi'.
  injection Hi' as Ha Hf. now split.
Qed.

End WithMath.
End GeneratorFacts.

(** ** Node count *)
Module NodeCountFacts.

(** The clamp on integer-valued Numbers, as a function of the floor. *)
Lemma nodeCount_clamp (D : float) :
  is_nan D = false ->
  exists n : Z,
    nodeCount D = JS.JInt n /\ (50 <= n <= 200)%Z /\
    match JS.Math_floor (D * 10)%float with
    | JS.JInt k => n = Z.max 50 (Z.min 200 k)
    | JS.JPosInf => n = 200%Z
    | JS.JNegInf => n = 50%Z
    | JS.JNaN => False
    end.
Proof.
  intros HD.
  pose proof (FloatFacts.Math_floor_not_nan _ (FloatFacts.mul_ten_not_nan D HD)) as Hf.
  unfold nodeCount.
  destruct (JS.Math_floor (D * 10)%float) as [k| | |]; simpl.
  - exists (Z.max 50 (Z.min 200 k)). repeat split; lia.
  - exists 200%Z. repeat split; lia.
  - exists 50%Z. repeat split; lia.
  - congruence.
Qed.

End NodeCountFacts.

(** ** Claims about the structure generator *)
Module GeneratorClaims.
Section WithMath.

Variables Math_sin Math_cos : float -> float.

(** C1 (determinism).  The output of [buildMapDataFromAudio] is a function
    of the channel-0 samples, the duration and the seed only: two calls on
    buffers that agree on these (whatever their other channels and sample
    rate) return the same outcome, hence the same number of nodes and, at
    every index, the same position, amp, freq, hue and connection list. *)
Theorem generator_deterministic (b1 b2 : AudioBuffer) (seed : string) :
  channel0 b1 = channel0 b2 ->
  duration b1 = duration b2 ->
  MapDNA.buildMapDataFromAudio Math_sin Math_cos b1 seed
  = MapDNA.buildMapDataFromAudio Math_sin Math_cos b2 seed
  /\ forall nodes1 nodes2,
       MapDNA.buildMapDataFromAudio Math_sin Math_cos b1 seed = Normal nodes1 ->
       MapDNA.buildMapDataFromAudio Math_sin Math_cos b2 seed = Normal nodes2 ->
       List.length nodes1 = List.length nodes2
       /\ forall i,
            let n1 := nth i nodes1 MapDNA.blankNode in
            let n2 := nth i nodes2 MapDNA.blankNode in
            position n1 = position n2 /\ amp n1 = amp n2 /\ freq n1 = freq n2
            /\ hue n1 = hue n2 /\ connections n1 = connections n2.
Proof.
  intros Hc Hd.
  assert (E : MapDNA.buildMapDataFromAudio Math_sin Math_cos b1 seed
              = MapDNA.buildMapDataFromAudio Math_sin Math_cos b2 seed)
    by (unfold MapDNA.buildMapDataFromAudio; now rewrite Hc, Hd).
  split; [exact E|].
  intros nodes1 nodes2 H1 H2. rewrite E, H2 in H1.
  injection H1 as <-. repeat split.
Qed.

(** C3 (node count).  For a duration [D >= 0] the node count is
    [max(50, min(200, floor(D * 10)))], an integer between 50 and 200, and
    it is the number of nodes the generator returns. *)
Theorem node_count_clamped (b : AudioBuffer) (seed : string) :
  (0 <=? duration b)%float = true ->
  exists (n : Z) (nodes : list Node),
    nodeCount (duration b) = JS.JInt n
    /\ (50 <= n <= 200)%Z
    /\ match JS.Math_floor (duration b * 10)%float with
       | JS.JInt k => n = Z.max 50 (Z.min 200 k)
       | JS.JPosInf => n = 200%Z
       | JS.JNegInf => n = 50%Z
       | JS.JNaN => False
       end
    /\ MapDNA.buildMapDataFromAudio Math_sin Math_cos b seed = Normal nodes
    /\ List.length nodes = Z.to_nat n.
Proof.
  intros HD.
  destruct (NodeCountFacts.nodeCount_clamp _ (FloatFacts.leb_zero_not_nan _ HD))
    as (n & Hn & Hb & Hf).
  destruct (GeneratorFacts.build_normal Math_sin Math_cos b seed n Hn)
    as (nodes & Hnodes & Hlen & _).
  exists n, nodes. repeat split; try assumption; lia.
Qed.

(** C4, as amended.  With [n] nodes and [step = max(1, floor(len / n))],
    node [i] takes its amp and freq from the slice
    [i * step, min(len, (i + 1) * step)); laid end to end the slices are
    the first [n * step] samples.  When [n <= len] every slice has exactly
    [step] samples and the last [len mod n] samples belong to no slice;
    when [len < n] the first [len] slices hold one sample each and the
    remaining ones are empty. *)
Theorem slices_cover_prefix (b : AudioBuffer) (seed : string) :
  (0 <=? duration b)%float = true ->
  exists nodes : list Node,
    MapDNA.buildMapDataFromAudio Math_sin Math_cos b seed = Normal nodes
    /\ let data := channel0 b in
       let len := List.length data in
       let n := List.length nodes in
       let step := sliceStep len n in
       (forall i, (i < n)%nat ->
          amp (nth i nodes MapDNA.blankNode) = MapDNA.maxAbs (MapDNA.nodeSlice data step i)
          /\ freq (nth i nodes MapDNA.blankNode)
             = MapDNA.extractDominantFrequency (MapDNA.nodeSlice data step i))
       /\ List.concat (MapDNA.slices data n) = firstn (n * step) data
       /\ ((n <= len)%nat ->
             (forall i, (i < n)%nat -> List.length (MapDNA.nodeSlice data step i) = step)
             /\ (n * step = len - len mod n)%nat)
       /\ ((len < n)%nat ->
             forall i, (i < n)%nat ->
               MapDNA.nodeSlice data step i
               = if (i <? len)%nat then [nth i data 0%float] else []).
Proof.
  intros HD.
  destruct (NodeCountFacts.nodeCount_clamp _ (FloatFacts.leb_zero_not_nan _ HD))
    as (nz & Hn & Hb & _).
  destruct (GeneratorFacts.build_features Math_sin Math_cos b seed nz Hn)
    as (nodes & Hbuild & Hlen & Hfeat).
  exists nodes. split; [exact Hbuild|]. cbv zeta.
  rewrite <- Hlen in Hfeat.
  set (data := channel0 b) in *. set (n := List.length nodes) in *.
  set (step := sliceStep (List.length data) n) in *.
  assert (Hn50 : (50 <= n)%nat) by (unfold n; lia).
  split; [|split; [|split]].
  - exact Hfeat.
  - unfold MapDNA.slices. apply SliceFacts.slices_concat.
  - intros Hle. pose proof (SliceFacts.sliceStep_fits _ _ Hle) as Hfit.
    fold step in Hfit. split.
    + intros i Hi. rewrite SliceFacts.nodeSlice_length.
      assert ((i + 1) * step <= n * step)%nat by (apply Nat.mul_le_mono_r; lia).
      rewrite Nat.min_l by lia. lia.
    + unfold step, sliceStep.
      assert (1 <= List.length data / n)%nat by (apply Nat.div_le_lower_bound; lia).
      rewrite Nat.max_r by lia.
      pose proof (Nat.div_mod_eq (List.length data) n). lia.
  - intros Hlt i Hi. unfold step. rewrite (SliceFacts.sliceStep_short _ _ Hlt).
    rewrite SliceFacts.nodeSlice_eq, !Nat.mul_1_r.
    destruct (Nat.ltb_spec i (List.length data)) as [Hil|Hil].
    + rewrite skipn_firstn_comm. replace (i + 1 - i)%nat with 1%nat by lia.
      rewrite <- (firstn_skipn i data) at 2.
      rewrite app_nth2 by (rewrite length_firstn; lia).
      rewrite length_firstn, Nat.min_l by lia. rewrite Nat.sub_diag.
      assert (Hs : (List.length (skipn i data) > 0)%nat) by (rewrite length_skipn; lia).
      destruct (skipn i data) as [|x rest]; [simpl in Hs; lia|reflexivity].
    + rewrite firstn_all2 by lia. now rewrite skipn_all2 by lia.
Qed.

End WithMath.

(** C4, as stated, fails: for 51 samples and 50 nodes the step is 1, every
    slice holds one sample, and the slices together are the first 50
    samples only; the last sample is in no slice. *)
Lemma slices_drop_the_tail :
  nodeCount (duration Examples.rampBuffer) = JS.JInt 50
  /\ List.concat (MapDNA.slices (channel0 Examples.rampBuffer) 50)
     = firstn 50 (channel0 Examples.rampBuffer)
  /\ List.concat (MapDNA.slices (channel0 Examples.rampBuffer) 50)
     <> channel0 Examples.rampBuffer.
Proof.
  split; [reflexivity|]. split; [reflexivity|].
  intros H. apply (f_equal (@List.length float)) in H.
  vm_compute in H. discriminate H.
Qed.

End GeneratorClaims.

(** ** The galaxy builders *)
Module GalaxyFacts.
Section WithMath.

Variables Math_sin Math_cos : float -> float.
Variable setHSL : float -> float -> float -> float * float * float.

Lemma positionsOf_length (pts : list Galaxy.Point) :
  List.length (Galaxy.positionsOf pts) = (List.length pts * 3)%nat.
Proof.
  unfold Galaxy.positionsOf. induction pts as [|p pts IH]; simpl; [reflexivity|].
  now rewrite IH.
Qed.

Lemma map_const {A B} (c : B) (l : list A) :
  map (fun _ => c) l = repeat c (List.length l).
Proof. induction l; simpl; congruence. Qed.

Lemma commit_stars (this : Galaxy.State) (armsCount : float) (pts : list Galaxy.Point) :
  let g := Galaxy.commit this armsCount pts in
  Galaxy.stars g
  = Some (Galaxy.mkStars (Galaxy.positionsOf pts) (Galaxy.colorsOf pts)
            (Galaxy.shapeTiersOf pts))
  /\ Galaxy.pointCount g = List.length pts
  /\ Galaxy.phiCache g = Galaxy.phiCache this
  /\ Galaxy.rCache g = Galaxy.rCache this.
Proof.
  unfold Galaxy.commit, Galaxy.commitStars, Galaxy.clearStars, Galaxy.cacheBaselines,
    Galaxy.pointCount.
  cbn [Galaxy.stars Galaxy.starPositions Galaxy.phiCache Galaxy.rCache].
  repeat split.
  rewrite positionsOf_length. apply Nat.div_mul. discriminate.
Qed.

(** The points a builder loop produced, read back from the built state. *)
Lemma builder_points {S} (this : Galaxy.State) (seed : string)
    (pre : Prng.Rand S) (body : S -> nat -> Prng.Rand Galaxy.Point) (N : nat)
    (toArms : S -> float) :
  exists pts,
    (let '(a, pts) :=
       Prng.run seed (s <- pre ;; pts <- Prng.mapM (body s) (seq 0 N) ;;
                      Prng.ret (toArms s, pts)) in
     Galaxy.commit this a pts)
    = Galaxy.commit this (toArms (fst (pre (Prng.seededRandom seed)))) pts
    /\ pts = fst (Prng.mapM (body (fst (pre (Prng.seededRandom seed)))) (seq 0 N)
                    (snd (pre (Prng.seededRandom seed)))).
Proof.
  unfold Prng.run, Prng.bind, Prng.ret.
  destruct (pre (Prng.seededRandom seed)) as [s h1]; simpl.
  destruct (Prng.mapM (body s) (seq 0 N) h1) as [pts h2]; simpl.
  exists pts. split; reflexivity.
Qed.

Lemma neutral_spiral_commit (this : Galaxy.State) (N : nat) :
  exists armsCount pts,
    Galaxy.createNeutralSpiral Math_sin Math_cos setHSL this N
    = Galaxy.commit this armsCount pts
    /\ List.length pts = N
    /\ map Galaxy.pt_tier pts = repeat 1%float N.
Proof.
  unfold Galaxy.createNeutralSpiral.
  destruct (builder_points this (Galaxy.seedOf this N)
              (Galaxy.chooseArmsCount (Galaxy.cfgArms this))
              (Galaxy.spiralPoint Math_sin Math_cos setHSL N) N (fun a => a))
    as (pts & E & Hpts).
  rewrite E. eexists _, pts. split; [reflexivity|].
  rewrite Hpts. split.
  - now rewrite RandFacts.mapM_length, length_seq.
  - rewrite (RandFacts.mapM_map _ Galaxy.pt_tier (fun _ => 1%float))
      by (intros; reflexivity).
    rewrite map_const, length_seq. reflexivity.
Qed.

Lemma map_galaxy_commit (this : Galaxy.State) (data : list Node) :
  data <> [] ->
  let N := Nat.min 4000 (Nat.max 900 (List.length data * 10)) in
  exists armsCount pts,
    Galaxy.createGalaxyFromNeuralMap Math_sin Math_cos setHSL this data
    = Galaxy.commit this armsCount pts
    /\ List.length pts = N
    /\ forall tier : Node -> float,
         (forall i h a,
            Galaxy.pt_tier (fst (Galaxy.mapPoint Math_sin Math_cos setHSL data N a i h))
            = tier (nth (i mod List.length data) data MapDNA.blankNode)) ->
         map Galaxy.pt_tier pts
         = map (fun i => tier (nth (i mod List.length data) data MapDNA.blankNode))
               (seq 0 N).
Proof.
  intros Hne N. unfold Galaxy.createGalaxyFromNeuralMap. fold N.
  destruct data as [|d0 data']; [congruence|].
  set (data := d0 :: data') in *.
  destruct (builder_points this (Galaxy.seedOf this (List.length data))
              (Galaxy.chooseArmsCount (Galaxy.cfgArms this))
              (Galaxy.mapPoint Math_sin Math_cos setHSL data N) N (fun a => a))
    as (pts & E & Hpts).
  rewrite E. eexists _, pts. split; [reflexivity|].
  rewrite Hpts. split.
  - now rewrite RandFacts.mapM_length, length_seq.
  - intros tier Ht. apply RandFacts.mapM_map. intros i h. apply Ht.
Qed.

End WithMath.
End GalaxyFacts.

(** ** Claims about the galaxy builders and the smoothing caches *)
Module GalaxyClaims.
Section WithMath.

Variables Math_sin Math_cos : float -> float.
Variable setHSL : float -> float -> float -> float * float * float.

Lemma shapeTiersOf_repeat (pts : list Galaxy.Point) (c : float) (N : nat) :
  map Galaxy.pt_tier pts = repeat c N ->
  Galaxy.shapeTiersOf pts = repeat (JS.Math_fround c) N.
Proof.
  intros H. unfold Galaxy.shapeTiersOf.
  rewrite <- (map_map Galaxy.pt_tier JS.Math_fround), H.
  clear H. induction N; simpl; congruence.
Qed.

(** C10 (fallback).  Built from an empty node list, the galaxy is the
    neutral spiral of [N = min(4000, max(900, 10 * 0)) = 900] points: the
    committed geometry has 900 positions (2700 coordinates) and every
    shape tier is 1.  For any node list the committed point count is
    [min(4000, max(900, 10 * length))]. *)
Theorem empty_map_builds_neutral_spiral (this : Galaxy.State) :
  let g := Galaxy.createGalaxyFromNeuralMap Math_sin Math_cos setHSL this [] in
  g = Galaxy.createNeutralSpiral Math_sin Math_cos setHSL this 900
  /\ (exists s,
        Galaxy.stars g = Some s
        /\ List.length (Galaxy.starPositions s) = 2700%nat
        /\ Galaxy.starTiers s = repeat 1%float 900
        /\ Galaxy.baseShapeTiers g = Some (repeat 1%float 900))
  /\ Galaxy.pointCount g = 900%nat
  /\ forall data,
       Galaxy.pointCount (Galaxy.createGalaxyFromNeuralMap Math_sin Math_cos setHSL this data)
       = Nat.min 4000 (Nat.max 900 (List.length data * 10)).
Proof.
  cbv zeta. split; [reflexivity|].
  change (Galaxy.createGalaxyFromNeuralMap Math_sin Math_cos setHSL this [])
    with (Galaxy.createNeutralSpiral Math_sin Math_cos setHSL this 900).
  destruct (GalaxyFacts.neutral_spiral_commit Math_sin Math_cos setHSL this 900)
    as (a & pts & E & Hlen & Htier).
  rewrite E.
  destruct (GalaxyFacts.commit_stars this a pts) as (Hs & Hc & _).
  split; [|split].
  - eexists. split; [exact Hs|].
    cbn [Galaxy.starPositions Galaxy.starTiers Galaxy.commit Galaxy.commitStars
         Galaxy.clearStars Galaxy.cacheBaselines Galaxy.baseShapeTiers].
    rewrite GalaxyFacts.positionsOf_length, Hlen.
    rewrite (shapeTiersOf_repeat pts 1 900 Htier).
    repeat split.
  - now rewrite Hc.
  - intros data. destruct data as [|d data'].
    + rewrite <- E in Hc. exact (eq_trans Hc Hlen).
    + destruct (GalaxyFacts.map_galaxy_commit Math_sin Math_cos setHSL this (d :: data'))
        as (a' & pts' & E' & Hlen' & _); [discriminate|].
      rewrite E'.
      destruct (GalaxyFacts.commit_stars this a' pts') as (_ & Hc' & _).
      now rewrite Hc'.
Qed.

(** C5, on the code.  For the buffer with no samples the generator
    returns 50 nodes whose [freq] is the NaN of [0 / 0], and the galaxy
    built from them is not the neutral spiral: it has 900 points of shape
    tier 2. *)
Theorem empty_samples_divide_by_zero (seed : string) (this : Galaxy.State) :
  exists nodes : list Node,
    MapDNA.buildMapDataFromAudio Math_sin Math_cos Examples.emptyBuffer seed = Normal nodes
    /\ List.length nodes = 50%nat
    /\ (forall i, (i < 50)%nat -> freq (nth i nodes MapDNA.blankNode) = nan)
    /\ MapDNA.extractDominantFrequency [] = (0 / 0)%float
    /\ exists s,
         Galaxy.stars (Galaxy.createGalaxyFromNeuralMap Math_sin Math_cos setHSL this nodes)
         = Some s
         /\ Galaxy.starTiers s = repeat 2%float 900.
Proof.
  destruct (GeneratorFacts.build_features Math_sin Math_cos Examples.emptyBuffer seed 50
              eq_refl) as (nodes & Hb & Hlen & Hfeat).
  change (Z.to_nat 50) with 50%nat in Hlen, Hfeat.
  assert (Hfreq : forall i, (i < 50)%nat -> freq (nth i nodes MapDNA.blankNode) = nan).
  { intros i Hi. destruct (Hfeat i Hi) as [_ Hf].
    rewrite Hf. cbn [channel0 Examples.emptyBuffer].
    rewrite SliceFacts.nodeSlice_eq, firstn_nil, skipn_nil. reflexivity. }
  exists nodes. repeat split; try assumption.
  assert (Hne : nodes <> []) by (intros ->; discriminate).
  destruct (GalaxyFacts.map_galaxy_commit Math_sin Math_cos setHSL this nodes Hne)
    as (a & pts & E & Hlenp & Htier).
  rewrite E. destruct (GalaxyFacts.commit_stars this a pts) as (Hs & _).
  eexists. split; [exact Hs|]. cbn [Galaxy.starTiers].
  pose proof (Htier (fun nd => if (JS.clamp (freq nd * 8) 0 1 <? 0.33)%float then 0%float
                               else if (JS.clamp (freq nd * 8) 0 1 <? 0.66)%float then 1%float
                               else 2%float) (fun i h a0 => eq_refl)) as Ht.
  clear Htier. rewrite Hlen in Hlenp, Ht.
  change (Nat.min 4000 (Nat.max 900 (50 * 10))) with 900%nat in *.
  change 2%float with (JS.Math_fround 2).
  apply shapeTiersOf_repeat.
  rewrite Ht.
  transitivity (map (fun _ : nat => 2%float) (seq 0 900)).
  - apply map_ext. intros i.
    rewrite Hfreq by (apply Nat.mod_upper_bound; discriminate). reflexivity.
  - now rewrite GalaxyFacts.map_const, length_seq.
Qed.

End WithMath.
End GalaxyClaims.

(** ** The smoothing caches *)
Module CacheClaims.
Section WithFrame.

Variables Math_sin Math_cos : float -> float.
Variable setHSL : float -> float -> float -> float * float * float.
Variable Frame : Type.
Variables phi0_of phiTarget_of rBase_of rTarget_of : Galaxy.State -> Frame -> nat -> float.
Variables aPhi_of aR_of : Frame -> float.
Variable render : Galaxy.State -> Frame -> nat -> float -> float -> Galaxy.Point.

Lemma ensureCache_length (cache : option (list float)) (count : nat) :
  List.length (Galaxy.ensureCache cache count) = count.
Proof.
  unfold Galaxy.ensureCache. destruct cache as [c|]; [|apply repeat_length].
  destruct (Nat.eqb_spec (List.length c) count); [assumption|apply repeat_length].
Qed.

Lemma ensureCache_kept (c : list float) (count : nat) :
  List.length c = count -> Galaxy.ensureCache (Some c) count = c.
Proof.
  intros H. unfold Galaxy.ensureCache. now rewrite (proj2 (Nat.eqb_eq _ _) H).
Qed.

Lemma ensureCache_reset (cache : option (list float)) (count : nat) :
  (forall c, cache = Some c -> List.length c <> count) ->
  Galaxy.ensureCache cache count = repeat 0%float count.
Proof.
  intros H. unfold Galaxy.ensureCache. destruct cache as [c|]; [|reflexivity].
  destruct (Nat.eqb_spec (List.length c) count) as [E|E]; [|reflexivity].
  now destruct (H c eq_refl).
Qed.

Lemma rebuild_keeps_caches (this : Galaxy.State) (data : list Node) :
  let g := Galaxy.createGalaxyFromNeuralMap Math_sin Math_cos setHSL this data in
  Galaxy.phiCache g = Galaxy.phiCache this /\ Galaxy.rCache g = Galaxy.rCache this.
Proof.
  cbv zeta. destruct data as [|d data'].
  - change (Galaxy.createGalaxyFromNeuralMap Math_sin Math_cos setHSL this [])
      with (Galaxy.createNeutralSpiral Math_sin Math_cos setHSL this 900).
    destruct (GalaxyFacts.neutral_spiral_commit Math_sin Math_cos setHSL this 900)
      as (a & pts & E & _).
    rewrite E. destruct (GalaxyFacts.commit_stars this a pts) as (_ & _ & H1 & H2).
    split; assumption.
  - destruct (GalaxyFacts.map_galaxy_commit Math_sin Math_cos setHSL this (d :: data'))
      as (a & pts & E & _); [discriminate|].
    rewrite E. destruct (GalaxyFacts.commit_stars this a pts) as (_ & _ & H1 & H2).
    split; assumption.
Qed.

Lemma smooth_loop_lengths (this : Galaxy.State) (f : Frame) (l : list nat)
    (phis rs : list float) (out : list Galaxy.Point) :
  let '(phis', rs', _) :=
    fold_left (fun acc i =>
                 Galaxy.smoothPoint Frame phi0_of phiTarget_of rBase_of rTarget_of
                   aPhi_of aR_of render this f i acc) l (phis, rs, out) in
  List.length phis' = List.length phis /\ List.length rs' = List.length rs.
Proof.
  revert phis rs out. induction l as [|i l IH]; intros phis rs out; simpl; [now split|].
  match goal with
  | |- context [fold_left _ l (?p, ?r, ?o)] => specialize (IH p r o)
  end.
  destruct (fold_left _ l _) as [[phis' rs'] out'].
  now rewrite !GeneratorFacts.update_nth_length in IH.
Qed.

(** C9, as amended.  A rebuild does not assign the smoothing caches.
    Before the per-point loop uses them, [updateStars] replaces a cache by
    a zero-filled array of the current point count exactly when the cache
    is absent or has another length; a cache whose length already equals
    the point count is used as it is.  In every case the caches the loop
    uses, and the caches stored when the frame ends, have one entry per
    point; a newly constructed instance has no caches. *)
Theorem caches_sized_and_reset_on_count_change (this : Galaxy.State) (data : list Node) :
  let rebuilt := Galaxy.createGalaxyFromNeuralMap Math_sin Math_cos setHSL this data in
  let count := Galaxy.pointCount rebuilt in
  (Galaxy.phiCache rebuilt = Galaxy.phiCache this
   /\ Galaxy.rCache rebuilt = Galaxy.rCache this)
  /\ (List.length (Galaxy.ensureCache (Galaxy.phiCache rebuilt) count) = count
      /\ List.length (Galaxy.ensureCache (Galaxy.rCache rebuilt) count) = count)
  /\ (forall c, Galaxy.phiCache this = Some c -> List.length c = count ->
        Galaxy.ensureCache (Galaxy.phiCache rebuilt) count = c)
  /\ (forall c, Galaxy.rCache this = Some c -> List.length c = count ->
        Galaxy.ensureCache (Galaxy.rCache rebuilt) count = c)
  /\ ((forall c, Galaxy.phiCache this = Some c -> List.length c <> count) ->
        Galaxy.ensureCache (Galaxy.phiCache rebuilt) count = repeat 0%float count)
  /\ ((forall c, Galaxy.rCache this = Some c -> List.length c <> count) ->
        Galaxy.ensureCache (Galaxy.rCache rebuilt) count = repeat 0%float count)
  /\ (forall f : Frame,
        Galaxy.updateStars_skips rebuilt = false ->
        let after := Galaxy.updateStars Frame phi0_of phiTarget_of rBase_of rTarget_of
                       aPhi_of aR_of render rebuilt f in
        exists phis rs,
          Galaxy.phiCache after = Some phis /\ Galaxy.rCache after = Some rs
          /\ List.length phis = count /\ List.length rs = count)
  /\ (forall arms analyser hash,
        Galaxy.phiCache (Galaxy.constructed arms analyser hash) = None
        /\ Galaxy.rCache (Galaxy.constructed arms analyser hash) = None).
Proof.
  cbv zeta.
  destruct (rebuild_keeps_caches this data) as [Hp Hr].
  set (rebuilt := Galaxy.createGalaxyFromNeuralMap Math_sin Math_cos setHSL this data) in *.
  set (count := Galaxy.pointCount rebuilt).
  split; [now split|].
  split; [split; apply ensureCache_length|].
  split; [intros c Hc Hl; rewrite Hp, Hc; now apply ensureCache_kept|].
  split; [intros c Hc Hl; rewrite Hr, Hc; now apply ensureCache_kept|].
  split; [intros H; rewrite Hp; now apply ensureCache_reset|].
  split; [intros H; rewrite Hr; now apply ensureCache_reset|].
  split; [|intros; now split].
  intros f Hskip. unfold Galaxy.updateStars. rewrite Hskip. fold count.
  pose proof (smooth_loop_lengths rebuilt f (seq 0 count)
                (Galaxy.ensureCache (Galaxy.phiCache rebuilt) count)
                (Galaxy.ensureCache (Galaxy.rCache rebuilt) count) []) as HL.
  destruct (fold_left _ (seq 0 count) _) as [[phis' rs'] out'].
  destruct HL as [H1 H2]. rewrite ensureCache_length in H1, H2.
  exists phis', rs'. cbn [Galaxy.phiCache Galaxy.rCache]. now repeat split.
Qed.

End WithFrame.

(** C9, as stated, fails: an instance that has run a frame on a 900-point
    structure and is then rebuilt for another song (again 900 points)
    enters the next frame's loop with the caches of the old structure,
    not with reset ones. *)
Lemma rebuild_does_not_reset_caches :
  ~ (forall (Math_sin Math_cos : float -> float)
            (setHSL : float -> float -> float -> float * float * float)
            (this : Galaxy.State) (data : list Node),
       let rebuilt := Galaxy.createGalaxyFromNeuralMap Math_sin Math_cos setHSL this data in
       let count := Galaxy.pointCount rebuilt in
       Galaxy.ensureCache (Galaxy.phiCache rebuilt) count = repeat 0%float count
       /\ Galaxy.ensureCache (Galaxy.rCache rebuilt) count = repeat 0%float count).
Proof.
  intros H.
  specialize (H (fun x => x) (fun x => x) (fun a b c => (a, b, c))
                (Examples.withSongHash "b"
                   (Examples.afterOneFrame (fun x => x) (fun x => x)
                      (fun a b c => (a, b, c)))) []).
  destruct H as [H _].
  apply (f_equal (fun l => nth 0 l 0%float)) in H.
  vm_compute in H. discriminate H.
Qed.

End CacheClaims.

(** ** The two generators compared *)
Module EquivalenceFacts.

Lemma abs_not_nan (a : float) : is_nan a = false -> is_nan (PrimFloat.abs a) = false.
Proof.
  rewrite !FloatFacts.is_nan_spec, FloatAxioms.abs_spec.
  destruct (Prim2SF a); simpl; congruence.
Qed.

Lemma abs_sign (a : float) : is_nan a = false -> get_sign (PrimFloat.abs a) = false.
Proof.
  rewrite FloatFacts.is_nan_spec. intros Ha.
  unfold get_sign, is_zero.
  rewrite FloatAxioms.eqb_spec, FloatAxioms.abs_spec.
  pose proof (FloatAxioms.abs_spec a) as Habs.
  destruct (Prim2SF a) as [s|s| |s m e]; simpl in *; try congruence.
  - rewrite <- (SF2Prim_Prim2SF (PrimFloat.abs a)), Habs. reflexivity.
  - rewrite FloatAxioms.ltb_spec, Habs. reflexivity.
  - rewrite FloatAxioms.ltb_spec, Habs. reflexivity.
Qed.

Lemma Math_max_running (m v : float) :
  is_nan m = false -> get_sign m = false -> is_nan v = false ->
  JS.Math_max m v = if (m <? v)%float then v else m.
Proof.
  intros Hm Hs Hv. unfold JS.Math_max. rewrite Hm, Hv, Hs. simpl.
  destruct (m <? v)%float; [reflexivity|].
  destruct (v <? m)%float; reflexivity.
Qed.

(** On samples that are numbers the two [maxAbs] agree. *)
Lemma maxAbs_agree (arr : list float) :
  Forall (fun x => is_nan x = false) arr ->
  NeuralMap.maxAbs arr = MapDNA.maxAbs arr.
Proof.
  unfold NeuralMap.maxAbs, MapDNA.maxAbs.
  assert (G : forall m, is_nan m = false -> get_sign m = false ->
            Forall (fun x => is_nan x = false) arr ->
            fold_left (fun m v => JS.Math_max m (PrimFloat.abs v)) arr m
            = fold_left (fun m a => let v := PrimFloat.abs a in
                                    if (m <? v)%float then v else m) arr m).
  { induction arr as [|a arr IH]; intros m Hm Hs Hall; [reflexivity|].
    inversion Hall as [|? ? Ha Hrest]; subst. simpl.
    rewrite (Math_max_running m (PrimFloat.abs a) Hm Hs (abs_not_nan a Ha)).
    apply IH; [| |exact Hrest];
      destruct (m <? PrimFloat.abs a)%float; auto using abs_not_nan, abs_sign. }
  intros Hall. apply G; [reflexivity|reflexivity|exact Hall].
Qed.

End EquivalenceFacts.

Module EquivalenceClaims.
Section WithMath.

Variables Math_sin Math_cos : float -> float.

Lemma makeNode_export (data : list float) (n step i : nat) (h : Z) :
  Forall (fun x => is_nan x = false) data ->
  MapDNA.makeNode Math_sin Math_cos data n step i h
  = (NeuralMap.exportMesh (fst (NeuralMap.makeMesh Math_sin Math_cos data n step i h)),
     snd (NeuralMap.makeMesh Math_sin Math_cos data n step i h)).
Proof.
  intros Hall.
  unfold MapDNA.makeNode, NeuralMap.makeMesh, Prng.bind, Prng.rand, Prng.ret.
  cbn [fst snd NeuralMap.exportMesh NeuralMap.userData NeuralMap.mesh_position
       NeuralMap.ud_id NeuralMap.ud_amp NeuralMap.ud_freq NeuralMap.ud_hue
       NeuralMap.ud_connections].
  rewrite SliceFacts.nodeSlice_eq, SliceFacts.subarray_skipn_firstn.
  rewrite (EquivalenceFacts.maxAbs_agree _
             (SliceFacts.skipn_firstn_Forall _ data (i * step) ((i + 1) * step) Hall)).
  reflexivity.
Qed.

Lemma connectPair_export (i j : nat) (st : list NeuralMap.Mesh * list (nat * nat))
    (nodes : list Node) (h : Z) :
  NeuralMap.exports st nodes ->
  NeuralMap.exports (fst (NeuralMap.connectPair i j st h)) (fst (MapDNA.connectPair i j nodes h))
  /\ snd (NeuralMap.connectPair i j st h) = snd (MapDNA.connectPair i j nodes h).
Proof.
  destruct st as [ms ls]. unfold NeuralMap.exports. cbn [fst]. intros <-.
  unfold NeuralMap.connectPair, MapDNA.connectPair.
  destruct (Nat.eqb i j); [now split|].
  change MapDNA.blankNode with (NeuralMap.exportMesh NeuralMap.blankMesh).
  rewrite !map_nth.
  change (position (NeuralMap.exportMesh ?m)) with (NeuralMap.mesh_position m).
  destruct (distanceTo _ _ <? 8)%float; [|now split].
  unfold Prng.bind, Prng.rand, Prng.ret.
  match goal with |- context [if ?c then _ else _] => destruct c end;
    cbn [fst snd]; [|now split].
  split; [|reflexivity].
  now apply GeneratorFacts.update_nth_map.
Qed.

Lemma connectionLoops_export (n : nat) (st : list NeuralMap.Mesh * list (nat * nat))
    (nodes : list Node) (h : Z) :
  NeuralMap.exports st nodes ->
  NeuralMap.exports
    (fst (Prng.forM (seq 0 n)
            (fun i st1 => Prng.forM (seq 0 n)
                            (fun j st2 => NeuralMap.connectPair i j st2) st1) st h))
    (fst (MapDNA.connectionLoop n nodes h)).
Proof.
  intros H. unfold MapDNA.connectionLoop.
  apply (RandFacts.forM_sim NeuralMap.exports); [|exact H].
  intros i a b0 h1 Hab.
  apply (RandFacts.forM_sim NeuralMap.exports); [|exact Hab].
  intros j a2 b2 h2 Hab2. now apply connectPair_export.
Qed.

(** C2, as amended.  For a buffer whose channel-0 samples and duration
    are numbers (not NaN), [buildMapDataFromAudio] with a seed returns
    exactly what [exportNetwork] exports after [buildNetFromAudio] has run
    on a cleared NeuralMap whose [audioHash] is that seed: the same number
    of nodes (between 50 and 200) and, at every index, the same id,
    position, amp, freq, hue and connection list. *)
Theorem modes_share_derivation (b : AudioBuffer) (seed : string) :
  Forall (fun x => is_nan x = false) (channel0 b) ->
  is_nan (duration b) = false ->
  let exported :=
    NeuralMap.exportNetwork
      (NeuralMap.buildNetFromAudio Math_sin Math_cos (NeuralMap.cleared seed) b) in
  MapDNA.buildMapDataFromAudio Math_sin Math_cos b seed = Normal exported
  /\ (50 <= List.length exported <= 200)%nat.
Proof.
  intros Hall HD. cbv zeta.
  destruct (NodeCountFacts.nodeCount_clamp _ HD) as (n & Hn & Hb & _).
  assert (E : MapDNA.buildMapDataFromAudio Math_sin Math_cos b seed
              = Normal (NeuralMap.exportNetwork
                          (NeuralMap.buildNetFromAudio Math_sin Math_cos
                             (NeuralMap.cleared seed) b))).
  { unfold MapDNA.buildMapDataFromAudio, NeuralMap.buildNetFromAudio,
      NeuralMap.exportNetwork.
    rewrite Hn. cbn [NeuralMap.iterations NeuralMap.cleared NeuralMap.audioHash
                     NeuralMap.nodes NeuralMap.lines app].
    f_equal. unfold Prng.run, Prng.bind.
    set (h0 := Prng.seededRandom _).
    set (step := sliceStep _ _).
    unfold MapDNA.nodeLoop.
    rewrite (RandFacts.mapM_sim
               (NeuralMap.makeMesh Math_sin Math_cos (channel0 b) (Z.to_nat n) step)
               (MapDNA.makeNode Math_sin Math_cos (channel0 b) (Z.to_nat n) step)
               NeuralMap.exportMesh)
      by (intros; now apply makeNode_export).
    pose proof (RandFacts.mapM_length
                  (NeuralMap.makeMesh Math_sin Math_cos (channel0 b) (Z.to_nat n) step)
                  (seq 0 (Z.to_nat n)) h0) as Hlen.
    destruct (Prng.mapM _ (seq 0 (Z.to_nat n)) h0) as [ms h1].
    cbn [fst snd] in *. rewrite length_seq in Hlen. rewrite Hlen.
    pose proof (connectionLoops_export (Z.to_nat n) (ms, []) _ h1 eq_refl) as Hx.
    unfold NeuralMap.exports in Hx.
    destruct (Prng.forM (seq 0 (Z.to_nat n)) _ (ms, []) h1) as [[ms' ls'] h2].
    cbn [fst NeuralMap.nodes] in *. now rewrite Hx. }
  split; [exact E|].
  destruct (GeneratorFacts.build_normal Math_sin Math_cos b seed n Hn)
    as (nodes & Hnodes & Hlen & _).
  rewrite E in Hnodes. injection Hnodes as <-. lia.
Qed.

End WithMath.

(** C2, as stated, fails on a buffer that holds a NaN sample: the two
    [maxAbs] differ on it, so node 0 has amp 0 in one structure and NaN
    in the other. *)
Lemma nan_sample_separates_modes :
  ~ (forall (Math_sin Math_cos : float -> float) (b : AudioBuffer) (seed : string),
       MapDNA.buildMapDataFromAudio Math_sin Math_cos b seed
       = Normal (NeuralMap.exportNetwork
                   (NeuralMap.buildNetFromAudio Math_sin Math_cos
                      (NeuralMap.cleared seed) b))).
Proof.
  intros H.
  specialize (H (fun x => x) (fun x => x) Examples.nanBuffer "seed"%string).
  apply (f_equal (fun r => match r with
                           | Normal (nd :: _) => is_nan (amp nd)
                           | _ => false
                           end)) in H.
  vm_compute in H. discriminate H.
Qed.

End EquivalenceClaims.

(** ** Zone weights *)
Module ZoneClaims.

Local Open Scope R_scope.





(** The edges and the softness that [updateStars] uses are inside the
    clamp ranges whatever the configuration holds. *)
Lemma blend_parameters_in_range (cfg : Zones.BlendCfg) :
  0.02 <= Zones.bassEdgeN cfg <= 0.48
  /\ 0.52 <= Zones.trebleEdgeN cfg <= 0.98
  /\ 0.015 <= Zones.softnessK cfg <= 0.25.
Proof.
  unfold Zones.bassEdgeN, Zones.trebleEdgeN, Zones.softnessK, Zones.clamp.
  repeat split;
    try (apply Rmax_l);
    apply Rmax_lub; try lra; apply Rmin_l.
Qed.

End ZoneClaims.


(** ** Arm-lane pull *)
Module ArmLaneClaims.

Local Open Scope R_scope.








End ArmLaneClaims.

(** ** Audio feature envelopes *)
Module FeatureClaims.
Import AudioFeatures.

Local Open Scope Q_scope.



Lemma Qmax0_nonneg (v : Q) : 0 <= Qmax 0 v.
Proof. apply Q.le_max_l. Qed.


(** *** The band means *)







(** *** One call of [sample] *)















End FeatureClaims.

(** ** The theorems above at concrete inputs *)

(** C1 on a mono and a stereo buffer with the same first channel. *)
Lemma generator_deterministic_witness :
  channel0 Examples.monoBuffer = channel0 Examples.stereoBuffer
  /\ duration Examples.monoBuffer = duration Examples.stereoBuffer
  /\ MapDNA.buildMapDataFromAudio Examples.polySin Examples.polyCos
       Examples.monoBuffer "1a2b"
     = MapDNA.buildMapDataFromAudio Examples.polySin Examples.polyCos
         Examples.stereoBuffer "1a2b".
Proof.
  split; [reflexivity|]. split; [reflexivity|].
  exact (proj1 (GeneratorClaims.generator_deterministic Examples.polySin Examples.polyCos
                  Examples.monoBuffer Examples.stereoBuffer "1a2b" eq_refl eq_refl)).
Defined.

(** C3 on a three-second buffer. *)
Lemma node_count_clamped_witness :
  (0 <=? duration Examples.monoBuffer)%float = true
  /\ exists (n : Z) (nodes : list Node),
       nodeCount (duration Examples.monoBuffer) = JS.JInt n
       /\ (50 <= n <= 200)%Z
       /\ match JS.Math_floor (duration Examples.monoBuffer * 10)%float with
          | JS.JInt k => n = Z.max 50 (Z.min 200 k)
          | JS.JPosInf => n = 200%Z
          | JS.JNegInf => n = 50%Z
          | JS.JNaN => False
          end
       /\ MapDNA.buildMapDataFromAudio Examples.polySin Examples.polyCos
            Examples.monoBuffer "1a2b" = Normal nodes
       /\ List.length nodes = Z.to_nat n.
Proof.
  split; [reflexivity|].
  apply (GeneratorClaims.node_count_clamped Examples.polySin Examples.polyCos
           Examples.monoBuffer "1a2b").
  reflexivity.
Defined.

(** C4 (amended) on 51 samples. *)
Lemma slices_cover_prefix_witness :
  (0 <=? duration Examples.rampBuffer)%float = true
  /\ exists nodes : list Node,
       MapDNA.buildMapDataFromAudio Examples.polySin Examples.polyCos
         Examples.rampBuffer "1a2b" = Normal nodes
       /\ List.concat (MapDNA.slices Examples.rampSamples (List.length nodes))
          = firstn (List.length nodes * sliceStep 51 (List.length nodes))
                   Examples.rampSamples.
Proof.
  split; [reflexivity|].
  destruct (GeneratorClaims.slices_cover_prefix Examples.polySin Examples.polyCos
              Examples.rampBuffer "1a2b" eq_refl) as (nodes & Hb & _ & Hc & _).
  exists nodes. split; [exact Hb|exact Hc].
Defined.

(** C2 (amended) on a three-second square wave. *)
Lemma modes_share_derivation_witness :
  Forall (fun x => is_nan x = false) (channel0 Examples.monoBuffer)
  /\ is_nan (duration Examples.monoBuffer) = false
  /\ MapDNA.buildMapDataFromAudio Examples.polySin Examples.polyCos
       Examples.monoBuffer "1a2b"
     = Normal (NeuralMap.exportNetwork
                 (NeuralMap.buildNetFromAudio Examples.polySin Examples.polyCos
                    (NeuralMap.cleared "1a2b") Examples.monoBuffer)).
Proof.
  assert (H : Forall (fun x => is_nan x = false) (channel0 Examples.monoBuffer)).
  { apply Forall_forall. intros x Hx.
    assert (Hb : forallb (fun y => negb (is_nan y)) (channel0 Examples.monoBuffer) = true)
      by reflexivity.
    rewrite forallb_forall in Hb. specialize (Hb x Hx).
    now destruct (is_nan x). }
  split; [exact H|]. split; [reflexivity|].
  exact (proj1 (EquivalenceClaims.modes_share_derivation Examples.polySin Examples.polyCos
                  Examples.monoBuffer "1a2b" H eq_refl)).
Defined.

